(** * cogflow: the FL pipeline builder, its pollers and the service lifecycle

    A shallow embedding of [src/cogflow/plugins/kubeflowplugin.py]
    ([create_fl_pipeline], [get_served_model_url], [create_service],
    [delete_service], [get_default_namespace], [is_run_finished],
    [get_run_status], [serve_model_v1], [serve_model_v2],
    [delete_served_model], [delete_runs], [CogContainer.add_model_access])
    and of [src/cogflow/__init__.py] (the run status loop of
    [create_run_from_pipeline_func], [serve_model_v1_url],
    [serve_model_v2_url], [load_component], [delete_pipeline]). *)

From Stdlib Require Import List String Ascii ZArith Bool Lia.
Import ListNotations.
Open Scope string_scope.

(** ** Python values, exceptions and results *)

(** The Python values the embedded code manipulates: [VEmpty] is
    [inspect._empty] (also [inspect.Parameter.empty]). *)
Inductive PyVal :=
| VEmpty
| VNone
| VBool (b : bool)
| VInt (z : Z)
| VStr (s : string)
| VType (t : string).

(** Exceptions, by class. *)
Inductive Exc :=
| ValueError (msg : string)
| KeyError (key : string)
| AttributeError (msg : string)
| AssertionError (msg : string)
| RuntimeError (msg : string)
| ApiException (status : string) (reason : string)
| FileNotFoundError (msg : string)
| ConfigException (msg : string)
| OtherException (cls : string) (msg : string).

(** A computation that returns normally or raises. *)
Inductive Result (A : Type) :=
| Ok (a : A)
| Raise (e : Exc).
Arguments Ok {A} a.
Arguments Raise {A} e.

Definition bind {A B} (r : Result A) (f : A -> Result B) : Result B :=
  match r with Ok a => f a | Raise e => Raise e end.

Notation "x <- r ;; k" := (bind r (fun x => k))
  (at level 61, r at next level, right associativity).

Definition str_mem (x : string) (l : list string) : bool :=
  existsb (String.eqb x) l.

(** [list(dict.fromkeys(l))]: first occurrences, in order. *)
Fixpoint dedup_aux (seen : list string) (l : list string) : list string :=
  match l with
  | [] => []
  | x :: r =>
      if str_mem x seen then dedup_aux seen r
      else x :: dedup_aux (x :: seen) r
  end.

Definition dict_fromkeys (l : list string) : list string := dedup_aux [] l.

(** ** The signature merger of [create_fl_pipeline] *)
Module SigMerge.

(** [inspect.Parameter.kind], in the order Python compares them. *)
Inductive ParamKind :=
| POSITIONAL_ONLY
| POSITIONAL_OR_KEYWORD
| VAR_POSITIONAL
| KEYWORD_ONLY
| VAR_KEYWORD.

Definition kind_rank (k : ParamKind) : nat :=
  match k with
  | POSITIONAL_ONLY => 0
  | POSITIONAL_OR_KEYWORD => 1
  | VAR_POSITIONAL => 2
  | KEYWORD_ONLY => 3
  | VAR_KEYWORD => 4
  end.

(** [inspect.Parameter] ([Parameter] is a Rocq keyword). *)
Record Param := mkParam {
  p_name : string;
  p_kind : ParamKind;
  p_default : PyVal;
  p_annotation : PyVal
}.

(** [inspect.signature(f).parameters]: an ordered mapping from names to
    parameters, kept as the list of parameters in declaration order (the
    names of a Python signature are distinct). *)
Definition Signature := list Param.

(** [sig.parameters.get(name)]. *)
Definition params_get (sig : Signature) (name : string) : option Param :=
  find (fun p => String.eqb (p_name p) name) sig.

Definition is_empty (v : PyVal) : bool :=
  match v with VEmpty => true | _ => false end.

(** [inspect.Signature(parameters=...)]: the validation done by
    [Signature.__init__]: kinds in order, no non-default positional
    parameter after a defaulted one, no duplicate name. *)
Fixpoint signature_check (top : nat) (seen_default : bool)
    (seen : list string) (ps : list Param) : Result unit :=
  match ps with
  | [] => Ok tt
  | p :: r =>
      let k := kind_rank (p_kind p) in
      if Nat.ltb k top then Raise (ValueError "wrong parameter order")
      else
        let top' := Nat.max k top in
        let positional := Nat.leb k 1 in
        if positional && is_empty (p_default p) && seen_default then
          Raise (ValueError "non-default argument follows default argument")
        else
          let seen_default' :=
            seen_default || (positional && negb (is_empty (p_default p))) in
          if str_mem (p_name p) seen then
            Raise (ValueError ("duplicate parameter name: '" ++ p_name p ++ "'"))
          else signature_check top' seen_default' (p_name p :: seen) r
  end.

Definition Signature_new (ps : list Param) : Result Signature :=
  _ <- signature_check 0 false [] ps ;; Ok ps.

Definition client_req : list string := ["server_address"; "local_data_connector"].
Definition server_req : list string := ["number_of_iterations"].

(** [_valid_param_names]. *)
Definition valid_param_names (sig : Signature) : list string :=
  map p_name
    (filter (fun p => match p_kind p with
                      | POSITIONAL_OR_KEYWORD | KEYWORD_ONLY => true
                      | _ => false end) sig).

(** [[p for p in params if p not in req]]. *)
Definition extras (req : list string) (sig : Signature) : list string :=
  filter (fun n => negb (str_mem n req)) (valid_param_names sig).

Definition number_of_iterations_param : Param :=
  mkParam "number_of_iterations" POSITIONAL_OR_KEYWORD VEmpty (VType "int").

(** One iteration of the [for name in extra_params] loop. *)
Definition extra_param (client_sig server_sig : Signature) (name : string)
    : Result Param :=
  let param :=
    match params_get client_sig name with
    | Some p => Some p
    | None => params_get server_sig name
    end in
  match param with
  | None => Raise (AttributeError "'NoneType' object has no attribute 'default'")
  | Some param =>
      let default := if negb (is_empty (p_default param)) then p_default param
                     else VEmpty in
      let ann := if negb (is_empty (p_annotation param)) then p_annotation param
                 else VNone in
      Ok (mkParam name POSITIONAL_OR_KEYWORD default ann)
  end.

Fixpoint map_result {A B} (f : A -> Result B) (l : list A) : Result (list B) :=
  match l with
  | [] => Ok []
  | x :: r => y <- f x ;; ys <- map_result f r ;; Ok (y :: ys)
  end.

(** The signature part of [create_fl_pipeline]: [pipeline_sig]. *)
Definition create_fl_signature (fl_client fl_server : Signature)
    : Result Signature :=
  let client_extra := extras client_req fl_client in
  let server_extra := extras server_req fl_server in
  let extra_params := dict_fromkeys (client_extra ++ server_extra) in
  sig_extras <- map_result (extra_param fl_client fl_server) extra_params ;;
  Signature_new (number_of_iterations_param :: sig_extras).

(** The claim's reading of the merged signature: [number_of_iterations]
    first, then the first occurrence of each name in the client-extra
    parameters followed by the server-extra parameters, each with its
    declared default and annotation. *)
Definition extra_params_of (req : list string) (sig : Signature) : list Param :=
  filter (fun p => match p_kind p with
                   | POSITIONAL_OR_KEYWORD | KEYWORD_ONLY => negb (str_mem (p_name p) req)
                   | _ => false end) sig.

Fixpoint first_occurrences (seen : list string) (ps : list Param) : list Param :=
  match ps with
  | [] => []
  | p :: r =>
      if str_mem (p_name p) seen then first_occurrences seen r
      else p :: first_occurrences (p_name p :: seen) r
  end.

Definition claimed_signature (fl_client fl_server : Signature) : Signature :=
  number_of_iterations_param
  :: map (fun p => mkParam (p_name p) POSITIONAL_OR_KEYWORD (p_default p) (p_annotation p))
         (first_occurrences []
            (extra_params_of client_req fl_client ++ extra_params_of server_req fl_server)).

(** The declaration an extra name is read from: the client's parameter of
    that name when the client declares one (of any kind), else the
    server's. *)
Definition declared_param (fl_client fl_server : Signature) (name : string)
    : option Param :=
  match params_get fl_client name with
  | Some p => Some p
  | None => params_get fl_server name
  end.

Definition default_of (fl_client fl_server : Signature) (name : string) : PyVal :=
  match declared_param fl_client fl_server name with
  | Some p => p_default p
  | None => VEmpty
  end.

(** No parameter without a default after one with a default. *)
Fixpoint defaults_ordered (seen_default : bool) (ds : list PyVal) : bool :=
  match ds with
  | [] => true
  | d :: r =>
      if is_empty d then negb seen_default && defaults_ordered seen_default r
      else defaults_ordered true r
  end.

Definition merged_extra_names (fl_client fl_server : Signature) : list string :=
  dict_fromkeys (extras client_req fl_client ++ extras server_req fl_server).

Definition ann_or_none (v : PyVal) : PyVal := if is_empty v then VNone else v.

(** The parameter the loop builds for an extra name. *)
Definition annotation_of (fl_client fl_server : Signature) (name : string) : PyVal :=
  match declared_param fl_client fl_server name with
  | Some p => p_annotation p
  | None => VEmpty
  end.

Definition merged_extra (c s : Signature) (n : string) : Param :=
  mkParam n POSITIONAL_OR_KEYWORD (default_of c s n) (ann_or_none (annotation_of c s n)).

End SigMerge.

(** ** The KFP graph built by [fl_pipeline_func] *)

(** The user's [fl_client] and [fl_server] are component factories
    (identified by name here); [setup_links] and [release_links] are the
    components [create_fl_pipeline] builds from its two nested functions. *)
Module KfpDsl.

(** The components a task can run: the two built from [setup_links_func]
    and [release_links_func], and the user's [fl_client] / [fl_server]. *)
Inductive Component :=
| CSetupLinks
| CReleaseLinks
| CUser (name : string).

(** Arguments of a task: a pipeline input, another task's [.output], or a
    constant. *)
Inductive Arg :=
| APipelineParam (name : string)
| ATaskOutput (tid : nat)
| ALit (v : PyVal).

(** A [ContainerOp]. *)
Record Task := mkTask {
  t_id : nat;
  t_component : Component;
  t_args : list (string * Arg);
  t_after : list nat;
  t_pod_labels : list (string * Arg);
  t_node_selectors : list (string * string);
  t_display_name : option string
}.

(** The pipeline under construction: the tasks in creation order, the
    [dsl.ExitHandler] (its exit task and the tasks created inside its
    [with] block) and whether the [with] block is open. *)
Record DslState := mkState {
  st_next : nat;
  st_tasks : list Task;
  st_exit : option (nat * list nat);
  st_in_exit : bool
}.

Definition empty_state : DslState := mkState 0 [] None false.

Definition M (A : Type) : Type := DslState -> Result (A * DslState).

Definition ret {A} (a : A) : M A := fun st => Ok (a, st).

Definition mbind {A B} (m : M A) (k : A -> M B) : M B :=
  fun st => match m st with Ok (a, st') => k a st' | Raise e => Raise e end.

Definition throw {A} (e : Exc) : M A := fun _ => Raise e.

Local Notation "x <<- m ;; k" := (mbind m (fun x => k))
  (at level 61, m at next level, right associativity).
Local Notation "m ;;; k" := (mbind m (fun _ => k))
  (at level 61, right associativity).

(** [dict[key] = value] on an association list. *)
Fixpoint set_assoc {V} (k : string) (v : V) (l : list (string * V)) : list (string * V) :=
  match l with
  | [] => [(k, v)]
  | (k', v') :: r => if String.eqb k k' then (k, v) :: r else (k', v') :: set_assoc k v r
  end.

Fixpoint get_assoc {V} (k : string) (l : list (string * V)) : option V :=
  match l with
  | [] => None
  | (k', v) :: r => if String.eqb k k' then Some v else get_assoc k r
  end.

(** Calling a component factory: a new [ContainerOp], recorded in the open
    exit-handler group if any. *)
Definition new_task (c : Component) (args : list (string * Arg)) : M nat :=
  fun st =>
    let id := st_next st in
    let t := mkTask id c args [] [] [] None in
    let ex := if st_in_exit st then
                match st_exit st with
                | Some (h, g) => Some (h, (g ++ [id])%list)
                | None => None
                end
              else st_exit st in
    Ok (id, mkState (S id) ((st_tasks st ++ [t])%list) ex (st_in_exit st)).

Definition update_task (id : nat) (f : Task -> Task) : M unit :=
  fun st =>
    Ok (tt, mkState (st_next st)
              (map (fun t => if Nat.eqb (t_id t) id then f t else t) (st_tasks st))
              (st_exit st) (st_in_exit st)).

(** [op.after(dep)]. *)
Definition after (id dep : nat) : M unit :=
  update_task id (fun t => mkTask (t_id t) (t_component t) (t_args t)
                             ((t_after t ++ [dep])%list) (t_pod_labels t)
                             (t_node_selectors t) (t_display_name t)).

(** [op.add_pod_label(name, value)]. *)
Definition add_pod_label (id : nat) (name : string) (value : Arg) : M unit :=
  update_task id (fun t => mkTask (t_id t) (t_component t) (t_args t) (t_after t)
                             (set_assoc name value (t_pod_labels t))
                             (t_node_selectors t) (t_display_name t)).

(** [op.add_node_selector_constraint(label_name, value)]. *)
Definition add_node_selector_constraint (id : nat) (label : string) (value : string)
    : M unit :=
  update_task id (fun t => mkTask (t_id t) (t_component t) (t_args t) (t_after t)
                             (t_pod_labels t)
                             (set_assoc label value (t_node_selectors t))
                             (t_display_name t)).

(** [op.set_display_name(name)]. *)
Definition set_display_name (id : nat) (name : string) : M unit :=
  update_task id (fun t => mkTask (t_id t) (t_component t) (t_args t) (t_after t)
                             (t_pod_labels t) (t_node_selectors t) (Some name)).

(** [with dsl.ExitHandler(exit_op): body]. *)
Definition with_exit_handler {A} (exit_op : nat) (body : M A) : M A :=
  fun st =>
    match body (mkState (st_next st) (st_tasks st) (Some (exit_op, [])) true) with
    | Ok (a, st') => Ok (a, mkState (st_next st') (st_tasks st') (st_exit st') false)
    | Raise e => Raise e
    end.

Fixpoint mfor {A} (l : list A) (f : A -> M unit) : M unit :=
  match l with
  | [] => ret tt
  | x :: r => f x ;;; mfor r f
  end.

(** [args_map[k]]. *)
Definition lookup_arg (args_map : list (string * Arg)) (k : string) : M Arg :=
  match get_assoc k args_map with
  | Some v => ret v
  | None => throw (KeyError k)
  end.

Fixpoint kwargs_of (args_map : list (string * Arg)) (ks : list string)
    : M (list (string * Arg)) :=
  match ks with
  | [] => ret []
  | k :: r => v <<- lookup_arg args_map k ;; vs <<- kwargs_of args_map r ;; ret ((k, v) :: vs)
  end.

(** A connector: its [link] and its [region] attribute ([None] when the
    object has no [region] attribute). *)
Record Connector := mkConnector {
  link : PyVal;
  region : option string
}.

(** [getattr(connector, "region", "")]. *)
Definition getattr_region (c : Connector) : string :=
  match region c with Some r => r | None => "" end.

Definition srv_name : Arg := ALit (VStr "flserver-{{workflow.uid}}").

(** The body of the [for connector in connectors] loop. *)
Definition client_step (fl_client : Component) (node_enforce : bool)
    (setup_task : nat) (client_kwargs : list (string * Arg)) (connector : Connector)
    : M unit :=
  client_op <<- new_task fl_client
                  (("server_address", ATaskOutput setup_task)
                   :: ("local_data_connector", ALit (link connector))
                   :: client_kwargs) ;;
  after client_op setup_task ;;;
  let region := getattr_region connector in
  (if node_enforce then add_node_selector_constraint client_op "region" region
   else ret tt) ;;;
  set_display_name client_op ("client:" ++ region).

(** [fl_pipeline_func], given the bound arguments [bound.arguments]. *)
Definition fl_pipeline_func (fl_client fl_server : Component)
    (connectors : list Connector) (node_enforce : bool)
    (server_extra client_extra : list string) (args_map : list (string * Arg))
    : M unit :=
  number_of_iterations <<- lookup_arg args_map "number_of_iterations" ;;
  server_kwargs <<- kwargs_of args_map server_extra ;;
  client_kwargs <<- kwargs_of args_map client_extra ;;
  setup_task <<- new_task CSetupLinks [("name", srv_name)] ;;
  cleanup_task <<- new_task CReleaseLinks [("name", srv_name)] ;;
  with_exit_handler cleanup_task (
    server_task <<- new_task fl_server
                      (("number_of_iterations", number_of_iterations) :: server_kwargs) ;;
    after server_task setup_task ;;;
    add_pod_label server_task "app" srv_name ;;;
    mfor connectors (client_step fl_client node_enforce setup_task client_kwargs)).

(** The graph obtained by tracing [fl_pipeline_func] from an empty pipeline. *)
Definition build (fl_client fl_server : Component) (connectors : list Connector)
    (node_enforce : bool) (server_extra client_extra : list string)
    (args_map : list (string * Arg)) : Result DslState :=
  match fl_pipeline_func fl_client fl_server connectors node_enforce
          server_extra client_extra args_map empty_state with
  | Ok (_, st) => Ok st
  | Raise e => Raise e
  end.

(** The client task the loop creates for a connector. *)
Definition client_task (fl_client : Component) (node_enforce : bool) (setup : nat)
    (kwargs : list (string * Arg)) (id : nat) (c : Connector) : Task :=
  mkTask id fl_client
    (("server_address", ATaskOutput setup)
     :: ("local_data_connector", ALit (link c)) :: kwargs)
    [setup] []
    (if node_enforce then [("region", getattr_region c)] else [])
    (Some ("client:" ++ getattr_region c)).

Fixpoint client_tasks (fl_client : Component) (node_enforce : bool) (setup : nat)
    (kwargs : list (string * Arg)) (id : nat) (cs : list Connector) : list Task :=
  match cs with
  | [] => []
  | c :: r => client_task fl_client node_enforce setup kwargs id c
              :: client_tasks fl_client node_enforce setup kwargs (S id) r
  end.

(** The values [{k: args_map[k] for k in ks}] takes when every key is bound. *)
Definition bound_kwargs (args_map : list (string * Arg)) (ks : list string)
    : list (string * Arg) :=
  map (fun k => (k, match get_assoc k args_map with Some v => v | None => ALit VNone end)) ks.

Definition all_bound (args_map : list (string * Arg)) (ks : list string) : Prop :=
  forall k, In k ks -> get_assoc k args_map <> None.

Definition setup_task0 : Task := mkTask 0 CSetupLinks [("name", srv_name)] [] [] [] None.
Definition cleanup_task1 : Task := mkTask 1 CReleaseLinks [("name", srv_name)] [] [] [] None.
Definition server_task2 (fl_server : Component) (noi : Arg)
    (server_kwargs : list (string * Arg)) : Task :=
  mkTask 2 fl_server (("number_of_iterations", noi) :: server_kwargs) [0]
    [("app", srv_name)] [] None.

End KfpDsl.

(** ** [create_fl_pipeline], traced by the KFP compiler *)
Module FlPipeline.
Import SigMerge KfpDsl.

(** The KFP compiler calls the pipeline function with one [PipelineParam]
    per parameter of its [__signature__], in order, so [bound.arguments]
    maps each parameter name to its placeholder. *)
Definition compile_args (sig : Signature) : list (string * Arg) :=
  map (fun p => (p_name p, APipelineParam (p_name p))) sig.

Definition create_fl_pipeline (client_sig server_sig : Signature)
    (fl_client fl_server : string) (connectors : list Connector)
    (node_enforce : bool) : Result DslState :=
  pipeline_sig <- create_fl_signature client_sig server_sig ;;
  build (CUser fl_client) (CUser fl_server) connectors node_enforce
    (extras server_req server_sig) (extras client_req client_sig)
    (compile_args pipeline_sig).

Definition component_eqb (a b : Component) : bool :=
  match a, b with
  | CSetupLinks, CSetupLinks => true
  | CReleaseLinks, CReleaseLinks => true
  | CUser x, CUser y => String.eqb x y
  | _, _ => false
  end.

(** The number of tasks of a graph that run a given component. *)
Definition count_component (c : Component) (ts : list Task) : nat :=
  List.length (filter (fun t => component_eqb (t_component t) c) ts).

(** The tasks the [for connector in connectors] loop creates: those after
    the setup, cleanup and server tasks. *)
Definition client_ops (st : DslState) : list Task := skipn 3 (st_tasks st).

End FlPipeline.

(** ** The service lifecycle: [get_default_namespace], [create_service],
    [delete_service] *)
Module Services.

(** What the code observes of the outside world: the services the
    Kubernetes API server holds, as (namespace, name) pairs, and the lines
    printed so far. *)
Record World := mkWorld {
  services : list (string * string);
  stdout : list string
}.

Definition print (w : World) (line : string) : World :=
  mkWorld (services w) (stdout w ++ [line])%list.

Definition pair_eqb (a b : string * string) : bool :=
  String.eqb (fst a) (fst b) && String.eqb (snd a) (snd b).

Definition has_service (w : World) (ns name : string) : bool :=
  existsb (pair_eqb (ns, name)) (services w).

(** [str(e)]. *)
Definition exc_str (e : Exc) : string :=
  match e with
  | ApiException status reason =>
      "(" ++ status ++ ")" ++ String (ascii_of_nat 10) "Reason: " ++ reason
  | ValueError m | KeyError m | AttributeError m | AssertionError m
  | RuntimeError m | FileNotFoundError m | ConfigException m
  | OtherException _ m => m
  end.

(** [get_default_namespace()]: [incluster] is the outcome of
    [config.load_incluster_config()] followed by reading the service
    account's namespace file (its stripped contents); [kubeconfig] the
    outcome of [config.load_kube_config()] followed by reading the current
    context ([None] when it has no [namespace] key). *)
Definition get_default_namespace (incluster : Result string)
    (kubeconfig : Result (option string)) : Result string :=
  match incluster with
  | Ok ns => Ok ns
  | Raise (FileNotFoundError _) | Raise (ConfigException _) =>
      match kubeconfig with
      | Ok (Some ns) => Ok ns
      | Ok None => Ok "default"
      | Raise (ConfigException _) => Ok "default"
      | Raise e => Raise e
      end
  | Raise e => Raise e
  end.

(** [CoreV1Api().create_namespaced_service(namespace, body)]: [fault] is a
    failure of the call itself (an API error such as 403, or a transport
    error); otherwise the API server answers 409 when the service exists. *)
Definition create_namespaced_service (w : World) (fault : option Exc)
    (ns name : string) : Result World :=
  match fault with
  | Some e => Raise e
  | None =>
      if has_service w ns name then Raise (ApiException "409" "Conflict")
      else Ok (mkWorld ((ns, name) :: services w) (stdout w))
  end.

(** [CoreV1Api().delete_namespaced_service(name, namespace)]. *)
Definition delete_namespaced_service (w : World) (fault : option Exc)
    (ns name : string) : Result World :=
  match fault with
  | Some e => Raise e
  | None =>
      if has_service w ns name then
        Ok (mkWorld (filter (fun p => negb (pair_eqb (ns, name) p)) (services w)) (stdout w))
      else Raise (ApiException "404" "Not Found")
  end.

(** [KubeflowPlugin.create_service(name)]. *)
Definition create_service (w : World) (incluster : Result string)
    (kubeconfig : Result (option string)) (fault : option Exc) (name : string)
    : Result string * World :=
  match get_default_namespace incluster kubeconfig with
  | Raise e => (Raise e, w)
  | Ok namespace =>
      let srvname := name in
      let w := print w ("Creating service in namespace '" ++ namespace ++ "'...") in
      match create_namespaced_service w fault namespace srvname with
      | Ok w' =>
          (Ok srvname, print w' ("Service '" ++ srvname
                                 ++ "' created successfully in namespace '"
                                 ++ namespace ++ "'."))
      | Raise (ApiException s r) =>
          (Raise (RuntimeError ("Exception when creating service: "
                                ++ exc_str (ApiException s r))), w)
      | Raise e => (Raise e, w)
      end
  end.

(** [KubeflowPlugin.delete_service(name)]. *)
Definition delete_service (w : World) (incluster : Result string)
    (kubeconfig : Result (option string)) (fault : option Exc) (name : string)
    : Result unit * World :=
  match get_default_namespace incluster kubeconfig with
  | Raise e => (Raise e, w)
  | Ok namespace =>
      let srvname := name in
      let w := print w ("Deleting service '" ++ srvname ++ "' from namespace '"
                        ++ namespace ++ "'...") in
      match delete_namespaced_service w fault namespace srvname with
      | Ok w' =>
          (Ok tt, print w' ("Service '" ++ srvname
                            ++ "' deleted successfully from namespace '"
                            ++ namespace ++ "'."))
      | Raise (ApiException s r) =>
          (Ok tt, print w ("Exception when deleting service: "
                           ++ exc_str (ApiException s r)))
      | Raise e => (Raise e, w)
      end
  end.

(** [setup_links_func(name)], the body of the setup task. *)
Definition setup_links_func (w : World) (incluster : Result string)
    (kubeconfig : Result (option string)) (fault : option Exc) (name : string)
    : Result string * World :=
  match create_service w incluster kubeconfig fault name with
  | (Ok _, w') => (Ok name, w')
  | (Raise e, w') => (Raise e, w')
  end.

Definition is_api_exception (e : Exc) : bool :=
  match e with ApiException _ _ => true | _ => false end.

End Services.

(** ** The readiness poller [get_served_model_url] *)
Module Readiness.

(** What the poller does, in order: a probe of [is_isvc_ready] at a given
    attempt number, or a sleep of some seconds. *)
Inductive Event :=
| Probe (attempt_number : nat)
| Sleep (seconds : Z).

(** tenacity's [wait_exponential(multiplier, min, max)] (with
    [exp_base = 2]) at a given attempt number. *)
Definition wait_exponential (multiplier min max : Z) (attempt_number : nat) : Z :=
  Z.max (Z.max 0 min) (Z.min (multiplier * 2 ^ (Z.of_nat attempt_number - 1)) max).

(** [stop_after_attempt(n)]. *)
Definition stop_after_attempt (max_attempt_number attempt_number : nat) : bool :=
  Nat.leb max_attempt_number attempt_number.

Definition assert_message (isvc_name : string) : string :=
  "Failed to create Inference Service " ++ isvc_name ++ ".".

(** [assert_isvc_created] under [@retry(wait=wait_exponential(multiplier=2,
    min=1, max=10), stop=stop_after_attempt(30), reraise=True)], from
    attempt [attempt_number] on: tenacity's loop (attempt; on an exception
    check [stop], re-raise the last exception if it holds, else sleep
    [wait] and try again).  [is_ready k] is the answer of
    [kserve_client.is_isvc_ready] at the k-th attempt; [fuel] bounds the
    recursion and is never exhausted from [fuel >= 30]. *)
Fixpoint retry_assert_isvc_created (fuel : nat) (is_ready : nat -> bool)
    (isvc_name : string) (attempt_number : nat) : list Event * Result unit :=
  if is_ready attempt_number then ([Probe attempt_number], Ok tt)
  else if stop_after_attempt 30 attempt_number then
    ([Probe attempt_number], Raise (AssertionError (assert_message isvc_name)))
  else
    match fuel with
    | O => ([Probe attempt_number], Raise (AssertionError (assert_message isvc_name)))
    | S fuel' =>
        let sleep := wait_exponential 2 1 10 attempt_number in
        let (evs, r) := retry_assert_isvc_created fuel' is_ready isvc_name (S attempt_number) in
        (Probe attempt_number :: Sleep sleep :: evs, r)
    end.

(** [get_served_model_url(isvc_name)], after the plugin-activation check:
    [url] is [kclient.get(isvc_name)["status"]["address"]["url"]], [None]
    when one of these keys is missing. *)
Definition get_served_model_url (is_ready : nat -> bool) (url : option string)
    (isvc_name : string) : list Event * Result string :=
  let (evs, r) := retry_assert_isvc_created 30 is_ready isvc_name 1 in
  match r with
  | Raise e => (evs, Raise e)
  | Ok _ =>
      match url with
      | Some u => (evs, Ok u)
      | None => (evs, Raise (KeyError "address"))
      end
  end.

(** The claim's backoff: [min(base * 2^(attempt-1), max_wait)]. *)
Definition backoff (base max_wait : Z) (attempt : nat) : Z :=
  Z.min (base * 2 ^ (Z.of_nat attempt - 1)) max_wait.

(** [n] probes from attempt [i] on, with the claim's backoff (base 2, at
    most 10 seconds) between consecutive probes. *)
Fixpoint probes_with_backoff (i n : nat) : list Event :=
  match n with
  | O => []
  | S O => [Probe i]
  | S n' => Probe i :: Sleep (backoff 2 10 i) :: probes_with_backoff (S i) n'
  end.

Definition probe_count (evs : list Event) : nat :=
  List.length (filter (fun e => match e with Probe _ => true | Sleep _ => false end) evs).

End Readiness.

(** ** The run poller of [create_run_from_pipeline_func] *)
Module RunPoller.

(** What the loop does, in order: a [get_run] query to the KFP API (and the
    status it answered), a printed line, a sleep. *)
Inductive Event :=
| Query (status : string)
| Report (line : string)
| SleepFor (seconds : Z).

(** The [run_details] returned by the submission of the run. *)
Record RunDetails := mkRunDetails { run_id : string }.

Definition is_terminal (status : string) : bool :=
  str_mem status ["Succeeded"; "Failed"; "Skipped"; "Error"].

(** [KubeflowPlugin.is_run_finished(run_id)]: one [get_run] query;
    [get_run q] is the status the API answers to the q-th query. *)
Definition is_run_finished (get_run : nat -> string) (q : nat) : bool * nat :=
  let status := get_run q in (is_terminal status, S q).

(** [KubeflowPlugin.get_run_status(run_id)]: another [get_run] query. *)
Definition get_run_status (get_run : nat -> string) (q : nat) : string * nat :=
  (get_run q, S q).

(** [while not is_run_finished(...): status = get_run_status(...);
    print(...); time.sleep(TIMER_IN_SEC)], from query number [q] on.  The
    loop has no attempt cap; [fuel] bounds the number of loop tests
    evaluated here, [None] meaning the loop had not stopped within it. *)
Fixpoint poll_loop (fuel : nat) (get_run : nat -> string) (timer_in_sec : Z)
    (rid : string) (q : nat) : option (list Event * nat) :=
  match fuel with
  | O => None
  | S fuel' =>
      let (finished, q1) := is_run_finished get_run q in
      if finished then Some ([Query (get_run q)], q1)
      else
        let (status, q2) := get_run_status get_run q1 in
        match poll_loop fuel' get_run timer_in_sec rid q2 with
        | Some (evs, q3) =>
            Some (Query (get_run q) :: Query status
                  :: Report ("Run " ++ rid ++ " status: " ++ status)
                  :: SleepFor timer_in_sec :: evs, q3)
        | None => None
        end
  end.

(** [create_run_from_pipeline_func], after the submission returned
    [run_details]: the polling loop, then [return run_details]. *)
Definition create_run_from_pipeline_func (fuel : nat) (get_run : nat -> string)
    (timer_in_sec : Z) (run_details : RunDetails) : option (list Event * RunDetails) :=
  match poll_loop fuel get_run timer_in_sec (run_id run_details) 0 with
  | Some (evs, _) => Some (evs, run_details)
  | None => None
  end.

(** The shape of a finished polling trace: iterations whose loop test saw
    a non-terminal status, each querying the status again, printing it and
    sleeping [timer_in_sec], then a final loop test that saw a terminal
    status. *)
Inductive PollTrace (timer_in_sec : Z) (rid : string) : list Event -> Prop :=
| PT_done s :
    is_terminal s = true -> PollTrace timer_in_sec rid [Query s]
| PT_iter s1 s2 rest :
    is_terminal s1 = false ->
    PollTrace timer_in_sec rid rest ->
    PollTrace timer_in_sec rid
      (Query s1 :: Query s2 :: Report ("Run " ++ rid ++ " status: " ++ s2)
       :: SleepFor timer_in_sec :: rest).

Definition query_count (evs : list Event) : nat :=
  List.length (filter (fun e => match e with Query _ => true | _ => false end) evs).

Definition sleep_count (evs : list Event) : nat :=
  List.length (filter (fun e => match e with SleepFor _ => true | _ => false end) evs).

(** A run whose first [n] answers are [Running] and the rest [Succeeded]. *)
Definition running_then_succeeded (n : nat) (q : nat) : string :=
  if Nat.ltb q n then "Running" else "Succeeded".

(** The same run ending [Failed]. *)
Definition running_then_failed (q : nat) : string :=
  if Nat.ltb q 2 then "Running" else "Failed".

End RunPoller.

(** ** Python built-ins the callers use *)
Module PyBuiltins.
Import Services.

(** Truthiness of a [str]: false exactly for the empty string. *)
Definition truthy (s : string) : bool := negb (String.eqb s "").

(** [str(e)]: a [KeyError] shows the [repr] of its key (the keys here
    contain no quote); an [ApiException] built from a status and a reason
    (no HTTP response attached) shows both, each line ended by a newline;
    the others show their message. *)
Definition py_str (e : Exc) : string :=
  match e with
  | KeyError k => "'" ++ k ++ "'"
  | ApiException status reason =>
      "(" ++ status ++ ")" ++ String (ascii_of_nat 10)
        ("Reason: " ++ reason ++ String (ascii_of_nat 10) "")
  | ValueError m | AttributeError m | AssertionError m
  | RuntimeError m | FileNotFoundError m | ConfigException m
  | OtherException _ m => m
  end.

Fixpoint join (sep : string) (l : list string) : string :=
  match l with
  | [] => ""
  | [x] => x
  | x :: r => x ++ sep ++ join sep r
  end.

(** [repr] of a list of strings (without quotes inside). *)
Definition repr_str_list (l : list string) : string :=
  "[" ++ join ", " (map (fun s => "'" ++ s ++ "'") l) ++ "]".

End PyBuiltins.

(** ** Serving: [serve_model_v1], [serve_model_v2], [get_served_model_url]
    with its activation check, [delete_served_model], and the
    [serve_model_v1_url] / [serve_model_v2_url] helpers of
    [src/cogflow/__init__.py] *)
Module Serving.
Import Readiness PyBuiltins.

(** An [isvc_name] formatted by an f-string: [None] shows as "None". *)
Definition name_str (name : option string) : string :=
  match name with Some n => n | None => "None" end.

(** [Exception(msg)]. *)
Definition plain_exception (msg : string) : Exc := OtherException "Exception" msg.

(** [KubeflowPlugin.serve_model_v2(model_uri, name)]: [activation] is the
    outcome of [PluginManager().verify_activation(...)], [date] the string
    [datetime.now().strftime("%d%M")], [kcreate n] the outcome of
    [KServeClient().create(isvc)] for an InferenceService whose
    [metadata.name] is [n].  The Python function returns [None]; the model
    returns the name the InferenceService was created with. *)
Definition serve_model_v2 (activation : Result unit) (date : string)
    (kcreate : option string -> Result unit) (timer_in_sec : Z) (name : option string)
    : list Event * Result (option string) :=
  match activation with
  | Raise e => ([], Raise e)
  | Ok _ =>
      let name := match name with
                  | None => Some ("predictormodel" ++ date)
                  | Some n => Some n
                  end in
      let isvc_name := name in
      match kcreate isvc_name with
      | Raise e => ([], Raise e)
      | Ok _ => ([Sleep timer_in_sec], Ok isvc_name)
      end
  end.

(** [KubeflowPlugin.serve_model_v1(model_uri, name)]: no name is generated. *)
Definition serve_model_v1 (activation : Result unit)
    (kcreate : option string -> Result unit) (timer_in_sec : Z) (name : option string)
    : list Event * Result (option string) :=
  match activation with
  | Raise e => ([], Raise e)
  | Ok _ =>
      let isvc_name := name in
      match kcreate isvc_name with
      | Raise e => ([], Raise e)
      | Ok _ => ([Sleep timer_in_sec], Ok isvc_name)
      end
  end.

(** [KubeflowPlugin.get_served_model_url(isvc_name)] with its activation
    check, for an [isvc_name] that may be [None]: [is_ready n k] is the
    answer of [is_isvc_ready(n)] at the k-th attempt, [url n] the address
    [kclient.get(n)] reports; the polling is [Readiness.get_served_model_url]. *)
Definition get_served_model_url (activation : Result unit)
    (is_ready : option string -> nat -> bool) (url : option string -> option string)
    (isvc_name : option string) : list Event * Result string :=
  match activation with
  | Raise e => ([], Raise e)
  | Ok _ => Readiness.get_served_model_url (is_ready isvc_name) (url isvc_name)
              (name_str isvc_name)
  end.

(** [serve_model_v2_url(model_uri, name)] of [src/cogflow/__init__.py]
    ([except Exception]: every exception modelled here is an [Exception]). *)
Definition serve_model_v2_url (activation : Result unit) (date : string)
    (kcreate : option string -> Result unit) (timer_in_sec : Z)
    (is_ready : option string -> nat -> bool) (url : option string -> option string)
    (name : option string) : list Event * string :=
  match serve_model_v2 activation date kcreate timer_in_sec name with
  | (evs, Raise exp) => (evs, "Failed to serve model: " ++ py_str exp)
  | (evs, Ok _) =>
      match get_served_model_url activation is_ready url name with
      | (evs', Ok u) => ((evs ++ evs')%list, u)
      | (evs', Raise exp) => ((evs ++ evs')%list, "Failed to serve model: " ++ py_str exp)
      end
  end.

(** [serve_model_v1_url(model_uri, name)]. *)
Definition serve_model_v1_url (activation : Result unit)
    (kcreate : option string -> Result unit) (timer_in_sec : Z)
    (is_ready : option string -> nat -> bool) (url : option string -> option string)
    (name : option string) : list Event * string :=
  match serve_model_v1 activation kcreate timer_in_sec name with
  | (evs, Raise exp) => (evs, "Failed to serve model: " ++ py_str exp)
  | (evs, Ok _) =>
      match get_served_model_url activation is_ready url name with
      | (evs', Ok u) => ((evs ++ evs')%list, u)
      | (evs', Raise exp) => ((evs ++ evs')%list, "Failed to serve model: " ++ py_str exp)
      end
  end.

(** [KubeflowPlugin.delete_served_model(isvc_name)]: [kdelete] is the
    outcome of [KServeClient().delete(isvc_name)]; the lines printed come
    second. *)
Definition delete_served_model (activation : Result unit) (kdelete : Result unit)
    : Result unit * list string :=
  match activation with
  | Raise e => (Raise e, [])
  | Ok _ =>
      match kdelete with
      | Ok _ => (Ok tt, ["Inference Service has been deleted successfully."])
      | Raise exp =>
          (Raise (plain_exception ("Failed to delete Inference Service: " ++ py_str exp)), [])
      end
  end.

(** The seconds slept along a trace of the readiness poller. *)
Definition total_sleep (evs : list Event) : Z :=
  fold_right (fun e acc => match e with Sleep s => (s + acc)%Z | Probe _ => acc end) 0%Z evs.

(** The sum of tenacity's waits after the failed attempts [a .. a+n-1]. *)
Fixpoint waits_from (a n : nat) : Z :=
  match n with
  | O => 0%Z
  | S n' => (wait_exponential 2 1 10 a + waits_from (S a) n')%Z
  end.

End Serving.

(** ** [load_component] of [src/cogflow/__init__.py] *)
Module Loading.
Import PyBuiltins.

(** The loader [load_component] hands over to, with its argument. *)
Inductive LoaderCall :=
| LoadComponentFromFile (file_path : string)
| LoadComponentFromUrl (url : string)
| LoadComponentFromText (text : string).

Definition is_not_none (o : option string) : bool :=
  match o with Some _ => true | None => false end.

(** [if o: return loader(o)] followed by the rest of the chain. *)
Definition if_truthy (o : option string) (loader : string -> LoaderCall)
    (otherwise : Result LoaderCall) : Result LoaderCall :=
  match o with
  | Some s => if truthy s then Ok (loader s) else otherwise
  | None => otherwise
  end.

(** [load_component(file_path, url, text)]: [locals()] holds the three
    arguments when the count is taken. *)
Definition load_component (file_path url text : option string) : Result LoaderCall :=
  let non_null_args_count := List.length (filter is_not_none [file_path; url; text]) in
  if negb (Nat.eqb non_null_args_count 1) then
    Raise (ValueError "Need to specify exactly one source")
  else
    if_truthy file_path LoadComponentFromFile
      (if_truthy url LoadComponentFromUrl
         (if_truthy text LoadComponentFromText
            (Raise (ValueError "Need to specify a source")))).

End Loading.

(** ** Pipeline cleanup: [KubeflowPlugin.delete_runs] and [delete_pipeline]
    of [src/cogflow/__init__.py] *)
Module Cleanup.
Import PyBuiltins.

(** The effects, in order: a deletion the KFP API or the database carried
    out, or a printed line. *)
Inductive Action :=
| RunDeleted (run_id : string)
| RunDetailsDeletedFromDb
| VersionDeleted (version_id : string)
| PipelineDeleted
| PipelineDetailsDeletedFromDb
| Printed (line : string).

(** A computation that logs actions and returns or raises. *)
Definition L (A : Type) : Type := list Action * Result A.

Definition lret {A} (a : A) : L A := ([], Ok a).

Definition lbind {A B} (m : L A) (k : A -> L B) : L B :=
  match snd m with
  | Ok a => ((fst m ++ fst (k a))%list, snd (k a))
  | Raise e => (fst m, Raise e)
  end.

Definition lof {A} (r : Result A) : L A := ([], r).

Definition ltell (a : Action) : L unit := ([a], Ok tt).

(** A call to the outside that, when it returns, has carried out [a]. *)
Definition lcall (r : Result unit) (a : Action) : L unit :=
  match r with Ok _ => ltell a | Raise e => ([], Raise e) end.

Local Notation "x <<- m ;; k" := (lbind m (fun x => k))
  (at level 61, m at next level, right associativity).
Local Notation "m ;;; k" := (lbind m (fun _ => k))
  (at level 61, right associativity).

Fixpoint lfor {A} (l : list A) (f : A -> L unit) : L unit :=
  match l with
  | [] => lret tt
  | x :: r => f x ;;; lfor r f
  end.

(** [try: body except ApiException as exp: handler(exp)] ([ApiException]
    is [kfp_server_api]'s, the class the KFP client raises); other
    exceptions propagate. *)
Definition try_api (body : L unit) (handler : Exc -> L unit) : L unit :=
  match snd body with
  | Raise (ApiException s r) =>
      ((fst body ++ fst (handler (ApiException s r)))%list, snd (handler (ApiException s r)))
  | _ => body
  end.

(** What the code asks of KFP and of the database for one pipeline:
    the [uuid]s of [NotebookPlugin.list_runs_by_pipeline_id(pipeline_id)["data"]],
    [client().runs.delete_run(id)],
    [NotebookPlugin.delete_run_details_from_db(pipeline_id)],
    the ids of [list_pipeline_versions(pipeline_id).versions] ([None] when
    that field is [None]), [delete_pipeline_version(version_id)],
    [delete_pipeline(pipeline_id)] and
    [NotebookPlugin.delete_pipeline_details_from_db(pipeline_id)]. *)
Record Backend := mkBackend {
  list_runs_by_pipeline_id : Result (list string);
  kfp_delete_run : string -> Result unit;
  db_delete_run_details : Result unit;
  list_pipeline_versions : Result (option (list string));
  kfp_delete_pipeline_version : string -> Result unit;
  kfp_delete_pipeline : Result unit;
  db_delete_pipeline_details : Result unit
}.

(** [KubeflowPlugin.delete_runs(run_ids)]. *)
Fixpoint delete_runs (b : Backend) (run_ids : list string) : L unit :=
  match run_ids with
  | [] => lret tt
  | run :: rest => lcall (kfp_delete_run b run) (RunDeleted run) ;;; delete_runs b rest
  end.

(** [delete_pipeline(pipeline_id)] of [src/cogflow/__init__.py]. *)
Definition delete_pipeline (b : Backend) (pipeline_id : string) : L unit :=
  run_ids <<- lof (list_runs_by_pipeline_id b) ;;
  try_api (delete_runs b run_ids ;;;
           lcall (db_delete_run_details b) RunDetailsDeletedFromDb)
    (fun exp => ltell (Printed ("Failed to delete run for the pipeline id "
                                ++ pipeline_id ++ ": " ++ py_str exp))) ;;;
  versions <<- lof (list_pipeline_versions b) ;;
  match versions with
  | Some ((_ :: _) as pipeline_version_ids) =>
      ltell (Printed ("Pipeline Version IDs to delete: "
                      ++ repr_str_list pipeline_version_ids)) ;;;
      lfor pipeline_version_ids (fun version_id =>
        try_api (lcall (kfp_delete_pipeline_version b version_id) (VersionDeleted version_id) ;;;
                 ltell (Printed ("Deleted pipeline version: " ++ version_id)))
          (fun exp => ltell (Printed ("Failed to delete pipeline version "
                                      ++ version_id ++ ": " ++ py_str exp))))
  | _ =>
      ltell (Printed ("No pipeline versions found for the specified pipeline ID "
                      ++ pipeline_id ++ "."))
  end ;;;
  try_api (lcall (kfp_delete_pipeline b) PipelineDeleted ;;;
           ltell (Printed ("Deleted pipeline: " ++ pipeline_id)))
    (fun exp => ltell (Printed ("Failed to delete pipeline " ++ pipeline_id ++ ": "
                                ++ py_str exp))) ;;;
  lcall (db_delete_pipeline_details b) PipelineDetailsDeletedFromDb.

(** The three [try] blocks of [delete_pipeline], as written there: the
    runs, one pipeline version, the pipeline itself; and the [if] on the
    versions. *)
Definition runs_part (b : Backend) (pipeline_id : string) (run_ids : list string) : L unit :=
  try_api (delete_runs b run_ids ;;;
           lcall (db_delete_run_details b) RunDetailsDeletedFromDb)
    (fun exp => ltell (Printed ("Failed to delete run for the pipeline id "
                                ++ pipeline_id ++ ": " ++ py_str exp))).

Definition version_part (b : Backend) (version_id : string) : L unit :=
  try_api (lcall (kfp_delete_pipeline_version b version_id) (VersionDeleted version_id) ;;;
           ltell (Printed ("Deleted pipeline version: " ++ version_id)))
    (fun exp => ltell (Printed ("Failed to delete pipeline version "
                                ++ version_id ++ ": " ++ py_str exp))).

Definition versions_part (b : Backend) (pipeline_id : string)
    (versions : option (list string)) : L unit :=
  match versions with
  | Some ((_ :: _) as pipeline_version_ids) =>
      ltell (Printed ("Pipeline Version IDs to delete: "
                      ++ repr_str_list pipeline_version_ids)) ;;;
      lfor pipeline_version_ids (version_part b)
  | _ =>
      ltell (Printed ("No pipeline versions found for the specified pipeline ID "
                      ++ pipeline_id ++ "."))
  end.

Definition pipeline_part (b : Backend) (pipeline_id : string) : L unit :=
  try_api (lcall (kfp_delete_pipeline b) PipelineDeleted ;;;
           ltell (Printed ("Deleted pipeline: " ++ pipeline_id)))
    (fun exp => ltell (Printed ("Failed to delete pipeline " ++ pipeline_id ++ ": "
                                ++ py_str exp))).

(** Every deletion of a run, a version or the pipeline, and of the runs'
    database records, that fails, fails with an [ApiException]. *)
Definition api_failures_only (b : Backend) : Prop :=
  (forall r e, kfp_delete_run b r = Raise e -> Services.is_api_exception e = true)
  /\ (forall e, db_delete_run_details b = Raise e -> Services.is_api_exception e = true)
  /\ (forall v e, kfp_delete_pipeline_version b v = Raise e ->
        Services.is_api_exception e = true)
  /\ (forall e, kfp_delete_pipeline b = Raise e -> Services.is_api_exception e = true).

End Cleanup.

(** ** [CogContainer.add_model_access] *)
Module ModelAccess.
Import PyBuiltins.

Definition env_vars : list string :=
  [ "DB_HOST"; "DB_PORT"; "DB_USER"; "DB_PASSWORD"; "DB_NAME";
    "AWS_ACCESS_KEY_ID"; "AWS_SECRET_ACCESS_KEY"; "MINIO_BUCKET_NAME";
    "BASE_PATH"; "MLFLOW_TRACKING_URI"; "KF_PIPELINES_SA_TOKEN_PATH";
    "MINIO_ENDPOINT_URL"; "MLFLOW_S3_ENDPOINT_URL" ].

(** [CogContainer.add_model_access(self)]: [environ key] is
    [os.environ.get(key)], [env] the container's [env] list before the
    call, each [add_env_variable(V1EnvVar(name, value))] appending one
    (name, value) pair to it; the result is the container's [env] after. *)
Definition add_model_access (activation : Result unit) (environ : string -> option string)
    (env : list (string * string)) : Result (list (string * string)) :=
  _ <- activation ;;
  Ok (fold_left (fun env key =>
                   match environ key with
                   | Some value => if truthy value then (env ++ [(key, value)])%list else env
                   | None => env
                   end) env_vars env).

(** The pairs the loop appends, key by key. *)
Fixpoint present_vars (environ : string -> option string) (keys : list string)
    : list (string * string) :=
  match keys with
  | [] => []
  | key :: r =>
      match environ key with
      | Some value => if truthy value then (key, value) :: present_vars environ r
                      else present_vars environ r
      | None => present_vars environ r
      end
  end.

End ModelAccess.

(** ** Concrete inputs used by the examples *)
Module Fixtures.
Import SigMerge Services.

Definition client_lr : Signature :=
  [ mkParam "server_address" POSITIONAL_OR_KEYWORD VEmpty (VType "str");
    mkParam "local_data_connector" POSITIONAL_OR_KEYWORD VEmpty VEmpty;
    mkParam "lr" POSITIONAL_OR_KEYWORD VEmpty VEmpty ].

Definition client_plain : Signature :=
  [ mkParam "server_address" POSITIONAL_OR_KEYWORD VEmpty (VType "str");
    mkParam "local_data_connector" POSITIONAL_OR_KEYWORD VEmpty VEmpty ].

Definition server_plain : Signature :=
  [ mkParam "number_of_iterations" POSITIONAL_OR_KEYWORD VEmpty (VType "int") ].

Definition server_epochs : Signature :=
  [ mkParam "number_of_iterations" POSITIONAL_OR_KEYWORD VEmpty (VType "int");
    mkParam "epochs" POSITIONAL_OR_KEYWORD VEmpty (VType "int") ].

(** A server that also declares [local_data_connector], with a default. *)
Definition server_ldc : Signature :=
  [ mkParam "number_of_iterations" POSITIONAL_OR_KEYWORD VEmpty (VType "int");
    mkParam "local_data_connector" KEYWORD_ONLY (VStr "none") (VType "str") ].

(** A client extra with a default followed by a server extra without one. *)
Definition client_lr_default : Signature :=
  [ mkParam "server_address" POSITIONAL_OR_KEYWORD VEmpty (VType "str");
    mkParam "local_data_connector" POSITIONAL_OR_KEYWORD VEmpty VEmpty;
    mkParam "lr" POSITIONAL_OR_KEYWORD (VInt 1) (VType "float") ].

Definition world_with_svc : World := mkWorld [("kubeflow", "flserver-1")] [].

End Fixtures.

(** * Proofs *)

(** ** Helpers on [dict.fromkeys] *)

Lemma str_mem_In x l : str_mem x l = true <-> In x l.
Proof.
  unfold str_mem; rewrite existsb_exists; split.
  - intros [y [Hy Heq]]; apply String.eqb_eq in Heq; subst; exact Hy.
  - intros H; exists x; split; [exact H | apply String.eqb_refl].
Qed.

Lemma str_mem_false x l : str_mem x l = false <-> ~ In x l.
Proof.
  rewrite <- str_mem_In; destruct (str_mem x l); split; congruence.
Qed.

Lemma dedup_aux_In seen l x :
  In x (dedup_aux seen l) <-> In x l /\ ~ In x seen.
Proof.
  revert seen; induction l as [|y r IH]; intros seen; simpl.
  - tauto.
  - destruct (str_mem y seen) eqn:Hm.
    + apply str_mem_In in Hm. rewrite IH.
      split; [tauto|]. intros [[<-|H] Hn]; [contradiction|tauto].
    + apply str_mem_false in Hm. simpl. rewrite IH. simpl.
      split.
      * intros [<-|[H1 H2]]; [tauto|]. split; [tauto|]. tauto.
      * intros [[<-|H] Hn]; [tauto|].
        destruct (String.eqb_spec y x) as [->|Hne]; [tauto|].
        right; split; [exact H|]. intros [E|E]; [congruence|contradiction].
Qed.

Lemma dedup_aux_NoDup seen l : NoDup (dedup_aux seen l).
Proof.
  revert seen; induction l as [|y r IH]; intros seen; simpl.
  - constructor.
  - destruct (str_mem y seen); [apply IH|].
    constructor; [|apply IH].
    rewrite dedup_aux_In; simpl; tauto.
Qed.

(** ** Signature merger *)
Module SigMergeFacts.
Import SigMerge Fixtures.

Example merged_plain :
  create_fl_signature client_plain server_plain = Ok [number_of_iterations_param].
Proof. reflexivity. Qed.

Example merged_lr_epochs :
  create_fl_signature client_lr server_epochs
  = Ok [number_of_iterations_param;
        mkParam "lr" POSITIONAL_OR_KEYWORD VEmpty VNone;
        mkParam "epochs" POSITIONAL_OR_KEYWORD VEmpty (VType "int")].
Proof. reflexivity. Qed.

Example merged_lr_default_epochs :
  create_fl_signature client_lr_default server_epochs
  = Raise (ValueError "non-default argument follows default argument").
Proof. reflexivity. Qed.

Lemma extras_not_req req sig n : In n (extras req sig) -> ~ In n req.
Proof.
  unfold extras; rewrite filter_In; intros [_ H].
  apply negb_true_iff, str_mem_false in H; exact H.
Qed.

Lemma extras_declared req sig n :
  In n (extras req sig) -> exists p, params_get sig n = Some p.
Proof.
  unfold extras, valid_param_names; rewrite filter_In; intros [H _].
  apply in_map_iff in H as [p [Hn Hp]]. apply filter_In in Hp as [Hp _].
  unfold params_get.
  destruct (find (fun q => String.eqb (p_name q) n) sig) as [q|] eqn:Hf.
  - exists q; reflexivity.
  - exfalso. apply (find_none _ _ Hf) in Hp.
    rewrite Hn, String.eqb_refl in Hp; discriminate.
Qed.

Lemma merged_names_declared c s n :
  In n (merged_extra_names c s) -> exists d, declared_param c s n = Some d.
Proof.
  unfold merged_extra_names, dict_fromkeys; rewrite dedup_aux_In.
  intros [H _]; apply in_app_or in H as [H|H]; unfold declared_param.
  - apply extras_declared in H as [p ->]; eauto.
  - destruct (params_get c n) as [p|]; [eauto|].
    apply extras_declared in H; exact H.
Qed.

Lemma extra_param_declared c s n d :
  declared_param c s n = Some d -> extra_param c s n = Ok (merged_extra c s n).
Proof.
  unfold extra_param, merged_extra, default_of, annotation_of, ann_or_none.
  intros Hd. change (match params_get c n with Some p => Some p | None => params_get s n end)
    with (declared_param c s n).
  rewrite Hd. destruct (p_default d), (p_annotation d); reflexivity.
Qed.

Lemma map_result_extras c s names :
  (forall n, In n names -> exists d, declared_param c s n = Some d) ->
  map_result (extra_param c s) names = Ok (map (merged_extra c s) names).
Proof.
  induction names as [|n r IH]; intros Hd; simpl; [reflexivity|].
  destruct (Hd n (or_introl eq_refl)) as [d Hn].
  rewrite (extra_param_declared _ _ _ _ Hn). simpl.
  rewrite IH; [reflexivity|]. intros m Hm; apply Hd; right; exact Hm.
Qed.

Lemma signature_check_extras c s names sd seen :
  NoDup names ->
  (forall n, In n names -> ~ In n seen) ->
  defaults_ordered sd (map (default_of c s) names) = true ->
  signature_check 1 sd seen (map (merged_extra c s) names) = Ok tt.
Proof.
  revert sd seen; induction names as [|n r IH]; intros sd seen Hnd Hseen Hdef;
    simpl; [reflexivity|].
  inversion Hnd as [|? ? Hnr Hndr]; subst.
  assert (Hm : str_mem n seen = false)
    by (apply str_mem_false, Hseen; left; reflexivity).
  simpl in Hdef. unfold merged_extra at 1; simpl.
  destruct (is_empty (default_of c s n)) eqn:He.
  - apply andb_true_iff in Hdef as [Hsd Hdef].
    destruct sd; [discriminate|]. simpl. rewrite Hm.
    apply IH; auto.
    intros m Hm' [E|E]; [subst; contradiction|]. exact (Hseen m (or_intror Hm') E).
  - simpl. rewrite Hm.
    apply IH; auto; [|rewrite orb_true_r; exact Hdef].
    intros m Hm' [E|E]; [subst; contradiction|]. exact (Hseen m (or_intror Hm') E).
Qed.

Lemma create_fl_signature_shape c s :
  ~ In "number_of_iterations" (extras client_req c) ->
  defaults_ordered false (map (default_of c s) (merged_extra_names c s)) = true ->
  create_fl_signature c s
  = Ok (number_of_iterations_param :: map (merged_extra c s) (merged_extra_names c s)).
Proof.
  intros Hnoi Hdef. unfold create_fl_signature.
  change (dict_fromkeys (extras client_req c ++ extras server_req s))
    with (merged_extra_names c s).
  rewrite map_result_extras by apply merged_names_declared.
  unfold Signature_new; simpl.
  rewrite signature_check_extras; [reflexivity| | |exact Hdef].
  - apply dedup_aux_NoDup.
  - intros n Hn [E|[]]; subst n.
    unfold merged_extra_names, dict_fromkeys in Hn.
    apply dedup_aux_In in Hn as [Hn _]; apply in_app_or in Hn as [Hn|Hn].
    + exact (Hnoi Hn).
    + apply extras_not_req in Hn; apply Hn; left; reflexivity.
Qed.

(** C1 (as stated, refuted): the merged signature is not the first
    occurrences of the client-extra then server-extra parameters with their
    declared defaults and annotations.  An extra declared without an
    annotation gets the annotation [None]; a server extra whose name the
    client also declares (here [local_data_connector]) takes the client's
    default and annotation. *)
Lemma create_fl_signature_claim_counterexample :
  create_fl_signature client_lr server_plain <> Ok (claimed_signature client_lr server_plain)
  /\ create_fl_signature client_plain server_ldc
     <> Ok (claimed_signature client_plain server_ldc).
Proof. split; vm_compute; congruence. Qed.

(** C1 (amended): whenever no client extra is named [number_of_iterations]
    and no extra without a default comes after an extra with a default,
    [create_fl_pipeline]'s signature is [number_of_iterations] (annotated
    [int], no default) followed by [dict.fromkeys(client_extra +
    server_extra)], every extra positional-or-keyword, with the default of
    the client's declaration of that name when the client declares it and
    otherwise the server's, and that declaration's annotation, [None] when
    it has none.  In particular, two callables with only their required
    parameters give exactly [[number_of_iterations]], and a client extra
    [lr] with a server extra [epochs] give [[number_of_iterations, lr,
    epochs]]. *)
Theorem create_fl_signature_merged :
  (forall c s,
     ~ In "number_of_iterations" (extras client_req c) ->
     defaults_ordered false (map (default_of c s) (merged_extra_names c s)) = true ->
     exists extra,
       create_fl_signature c s = Ok (number_of_iterations_param :: extra)
       /\ map p_name extra = merged_extra_names c s
       /\ Forall (fun p => p_kind p = POSITIONAL_OR_KEYWORD
                  /\ exists d, declared_param c s (p_name p) = Some d
                     /\ p_default p = p_default d
                     /\ p_annotation p = ann_or_none (p_annotation d)) extra)
  /\ (forall c s,
        extras client_req c = [] -> extras server_req s = [] ->
        create_fl_signature c s = Ok [number_of_iterations_param])
  /\ (forall c s,
        extras client_req c = ["lr"] -> extras server_req s = ["epochs"] ->
        defaults_ordered false [default_of c s "lr"; default_of c s "epochs"] = true ->
        exists ps, create_fl_signature c s = Ok ps
          /\ map p_name ps = ["number_of_iterations"; "lr"; "epochs"]).
Proof.
  split; [|split].
  - intros c s Hnoi Hdef.
    exists (map (merged_extra c s) (merged_extra_names c s)).
    split; [apply create_fl_signature_shape; assumption|]. split.
    + rewrite map_map; simpl; apply map_id.
    + apply Forall_forall; intros p Hp; apply in_map_iff in Hp as [n [<- Hn]].
      destruct (merged_names_declared _ _ _ Hn) as [d Hd].
      split; [reflexivity|]. exists d; simpl.
      unfold default_of, annotation_of; rewrite Hd; auto.
  - intros c s Hc Hs.
    rewrite create_fl_signature_shape; unfold merged_extra_names; rewrite ?Hc, ?Hs;
      [reflexivity| |reflexivity].
    simpl; tauto.
  - intros c s Hc Hs Hdef.
    eexists; split; [apply create_fl_signature_shape|].
    + rewrite Hc; intros [E|[]]; discriminate.
    + unfold merged_extra_names; rewrite Hc, Hs; exact Hdef.
    + unfold merged_extra_names; rewrite Hc, Hs; reflexivity.
Qed.

Lemma create_fl_signature_merged_witness :
  defaults_ordered false
    (map (default_of client_lr server_epochs) (merged_extra_names client_lr server_epochs))
  = true
  /\ create_fl_signature client_lr server_epochs
     = Ok [number_of_iterations_param;
           mkParam "lr" POSITIONAL_OR_KEYWORD VEmpty VNone;
           mkParam "epochs" POSITIONAL_OR_KEYWORD VEmpty (VType "int")]
  /\ (exists ps, create_fl_signature client_lr server_epochs = Ok ps
        /\ map p_name ps = ["number_of_iterations"; "lr"; "epochs"]).
Proof.
  split; [vm_compute; reflexivity|]. split.
  - destruct create_fl_signature_merged as [H1 _].
    destruct (H1 client_lr server_epochs) as [extra [He _]];
      [vm_compute; intros [E|[]]; discriminate | vm_compute; reflexivity |].
    rewrite He. vm_compute in He. vm_compute. symmetry; exact He.
  - destruct create_fl_signature_merged as [_ [_ H3]].
    apply H3; vm_compute; reflexivity.
Defined.

End SigMergeFacts.

(** ** The composed graph *)
Module KfpDslFacts.
Import KfpDsl.

Lemma map_update_fresh (id : nat) (f : Task -> Task) ts t :
  Forall (fun t' => t_id t' < id) ts -> t_id t = id ->
  map (fun x => if Nat.eqb (t_id x) id then f x else x) (ts ++ [t])%list
  = (ts ++ [f t])%list.
Proof.
  intros Hts Ht. rewrite map_app; simpl. rewrite Ht, Nat.eqb_refl. f_equal.
  induction Hts as [|x r Hx _ IH]; simpl; [reflexivity|].
  rewrite IH. replace (Nat.eqb (t_id x) id) with false; [reflexivity|].
  symmetry; apply Nat.eqb_neq; lia.
Qed.

Lemma kwargs_of_bound args_map ks st :
  all_bound args_map ks -> kwargs_of args_map ks st = Ok (bound_kwargs args_map ks, st).
Proof.
  revert st; induction ks as [|k r IH]; intros st Hb; [reflexivity|].
  simpl. unfold mbind at 1, lookup_arg.
  destruct (get_assoc k args_map) as [v|] eqn:Hk;
    [|exfalso; apply (Hb k); [left; reflexivity | exact Hk]].
  unfold ret at 1. unfold mbind. rewrite IH; [reflexivity|].
  intros k' Hk'; apply Hb; right; exact Hk'.
Qed.

Lemma client_step_ok fl_client node_enforce setup kwargs c n ts h g :
  Forall (fun t => t_id t < n) ts ->
  client_step fl_client node_enforce setup kwargs c (mkState n ts (Some (h, g)) true)
  = Ok (tt, mkState (S n) (ts ++ [client_task fl_client node_enforce setup kwargs n c])%list
                    (Some (h, (g ++ [n])%list)) true).
Proof.
  intros Hts. unfold client_step, mbind, new_task, after, update_task; simpl.
  rewrite map_update_fresh by (simpl; auto). simpl.
  destruct node_enforce; unfold add_node_selector_constraint, set_display_name,
    update_task, ret; simpl.
  - rewrite !map_update_fresh by (simpl; auto). reflexivity.
  - rewrite map_update_fresh by (simpl; auto). reflexivity.
Qed.

Lemma client_tasks_ids fl_client node_enforce setup kwargs n cs :
  Forall (fun t => n <= t_id t < n + List.length cs)
    (client_tasks fl_client node_enforce setup kwargs n cs).
Proof.
  revert n; induction cs as [|c r IH]; intros n; simpl; constructor.
  - simpl; lia.
  - eapply Forall_impl; [|apply IH]. simpl; intros t Ht; lia.
Qed.

Lemma mfor_clients fl_client node_enforce setup kwargs cs n ts h g :
  Forall (fun t => t_id t < n) ts ->
  mfor cs (client_step fl_client node_enforce setup kwargs) (mkState n ts (Some (h, g)) true)
  = Ok (tt, mkState (n + List.length cs)
              (ts ++ client_tasks fl_client node_enforce setup kwargs n cs)%list
              (Some (h, (g ++ seq n (List.length cs))%list)) true).
Proof.
  revert n ts g; induction cs as [|c r IH]; intros n ts g Hts; simpl.
  - rewrite Nat.add_0_r, !app_nil_r; reflexivity.
  - unfold mbind at 1. rewrite client_step_ok by exact Hts.
    rewrite IH.
    + rewrite <- !app_assoc. simpl. rewrite Nat.add_succ_r. reflexivity.
    + apply Forall_app; split.
      * eapply Forall_impl; [|exact Hts]. simpl; intros; lia.
      * constructor; [simpl; lia | constructor].
Qed.

Lemma build_shape fl_client fl_server connectors node_enforce server_extra client_extra
    args_map noi :
  get_assoc "number_of_iterations" args_map = Some noi ->
  all_bound args_map server_extra -> all_bound args_map client_extra ->
  build fl_client fl_server connectors node_enforce server_extra client_extra args_map
  = Ok (mkState (3 + List.length connectors)
          ([setup_task0; cleanup_task1;
            server_task2 fl_server noi (bound_kwargs args_map server_extra)]
           ++ client_tasks fl_client node_enforce 0 (bound_kwargs args_map client_extra)
                3 connectors)%list
          (Some (1, 2 :: seq 3 (List.length connectors))) false).
Proof.
  intros Hnoi Hs Hc.
  unfold build, fl_pipeline_func, mbind at 1, lookup_arg. rewrite Hnoi.
  unfold ret at 1. unfold mbind at 1. rewrite kwargs_of_bound by exact Hs.
  unfold mbind at 1. rewrite kwargs_of_bound by exact Hc.
  unfold mbind at 1, new_task at 1; simpl.
  unfold mbind at 1, new_task at 1; simpl.
  unfold with_exit_handler; simpl.
  unfold mbind at 1, new_task at 1; simpl.
  unfold mbind at 1, after, update_task at 1; simpl.
  unfold mbind at 1, add_pod_label, update_task at 1; simpl.
  rewrite mfor_clients.
  - reflexivity.
  - repeat constructor; simpl; lia.
Qed.

End KfpDslFacts.

(** ** [create_fl_pipeline] end to end *)
Module FlPipelineFacts.
Import SigMerge SigMergeFacts KfpDsl KfpDslFacts FlPipeline.

Lemma map_result_extra_names c s names ps :
  map_result (extra_param c s) names = Ok ps -> map p_name ps = names.
Proof.
  revert ps; induction names as [|n r IH]; intros ps H; simpl in H.
  - injection H as <-; reflexivity.
  - unfold extra_param at 1 in H.
    destruct (match params_get c n with Some p => Some p | None => params_get s n end)
      as [d|]; simpl in H; [|discriminate].
    destruct (map_result (extra_param c s) r) as [ps'|e] eqn:Hr; simpl in H; [|discriminate].
    injection H as <-; simpl; rewrite (IH ps' eq_refl); reflexivity.
Qed.

Lemma create_fl_signature_names c s sig :
  create_fl_signature c s = Ok sig ->
  map p_name sig = "number_of_iterations" :: merged_extra_names c s.
Proof.
  unfold create_fl_signature.
  destruct (map_result _ _) as [ps|e] eqn:Hm; simpl; [|discriminate].
  unfold Signature_new. destruct (signature_check _ _ _ _); simpl; [|discriminate].
  intros H; injection H as <-; simpl.
  rewrite (map_result_extra_names _ _ _ _ Hm); reflexivity.
Qed.

Lemma get_assoc_compile_args sig k :
  In k (map p_name sig) -> get_assoc k (compile_args sig) = Some (APipelineParam k).
Proof.
  induction sig as [|p r IH]; simpl; [tauto|].
  destruct (String.eqb_spec k (p_name p)) as [->|Hne]; [reflexivity|].
  intros [E|H]; [congruence|exact (IH H)].
Qed.

Lemma bound_kwargs_compile_args sig ks :
  (forall k, In k ks -> In k (map p_name sig)) ->
  bound_kwargs (compile_args sig) ks = map (fun k => (k, APipelineParam k)) ks.
Proof.
  intros H; unfold bound_kwargs; apply map_ext_in; intros k Hk.
  rewrite get_assoc_compile_args by (apply H, Hk); reflexivity.
Qed.

Lemma extras_in_signature c s sig :
  create_fl_signature c s = Ok sig ->
  (forall k, In k (extras client_req c) -> In k (map p_name sig))
  /\ (forall k, In k (extras server_req s) -> In k (map p_name sig)).
Proof.
  intros H; rewrite (create_fl_signature_names _ _ _ H).
  split; intros k Hk; right; unfold merged_extra_names, dict_fromkeys;
    apply dedup_aux_In; (split; [apply in_or_app; auto | simpl; tauto]).
Qed.

(** The graph [create_fl_pipeline] produces whenever its signature is
    built. *)
Lemma create_fl_pipeline_shape c s fl_client fl_server connectors node_enforce sig :
  create_fl_signature c s = Ok sig ->
  create_fl_pipeline c s fl_client fl_server connectors node_enforce
  = Ok (mkState (3 + List.length connectors)
          ([setup_task0; cleanup_task1;
            server_task2 (CUser fl_server) (APipelineParam "number_of_iterations")
              (map (fun k => (k, APipelineParam k)) (extras server_req s))]
           ++ client_tasks (CUser fl_client) node_enforce 0
                (map (fun k => (k, APipelineParam k)) (extras client_req c))
                3 connectors)%list
          (Some (1, 2 :: seq 3 (List.length connectors))) false).
Proof.
  intros H. unfold create_fl_pipeline. rewrite H; simpl.
  destruct (extras_in_signature _ _ _ H) as [Hc Hs].
  assert (Hn : In "number_of_iterations" (map p_name sig))
    by (rewrite (create_fl_signature_names _ _ _ H); left; reflexivity).
  rewrite build_shape with (noi := APipelineParam "number_of_iterations").
  - rewrite !bound_kwargs_compile_args by assumption. reflexivity.
  - apply get_assoc_compile_args, Hn.
  - intros k Hk; rewrite get_assoc_compile_args by (apply Hs, Hk); discriminate.
  - intros k Hk; rewrite get_assoc_compile_args by (apply Hc, Hk); discriminate.
Qed.

Lemma client_tasks_Forall2 fl_client node_enforce setup kwargs n cs :
  Forall2 (fun t c => t = client_task fl_client node_enforce setup kwargs (t_id t) c)
    (client_tasks fl_client node_enforce setup kwargs n cs) cs.
Proof.
  revert n; induction cs as [|c r IH]; intros n; simpl; constructor; [reflexivity|apply IH].
Qed.

Lemma client_tasks_Forall (P : Task -> Prop) fl_client node_enforce setup kwargs n cs :
  (forall id c, P (client_task fl_client node_enforce setup kwargs id c)) ->
  Forall P (client_tasks fl_client node_enforce setup kwargs n cs).
Proof.
  intros HP; revert n; induction cs as [|c r IH]; intros n; simpl; constructor;
    [apply HP | apply IH].
Qed.

Lemma client_tasks_ids_seq fl_client node_enforce setup kwargs n cs :
  map t_id (client_tasks fl_client node_enforce setup kwargs n cs) = seq n (List.length cs).
Proof.
  revert n; induction cs as [|c r IH]; intros n; simpl; [reflexivity|].
  rewrite IH; reflexivity.
Qed.

Lemma count_client_tasks c fl_client node_enforce setup kwargs n cs :
  count_component c (client_tasks fl_client node_enforce setup kwargs n cs)
  = if component_eqb fl_client c then List.length cs else 0.
Proof.
  unfold count_component; revert n; induction cs as [|x r IH]; intros n; simpl.
  - destruct (component_eqb fl_client c); reflexivity.
  - destruct (component_eqb fl_client c) eqn:E; simpl; rewrite IH; rewrite ?E; reflexivity.
Qed.

Lemma count_component_cons c t ts :
  count_component c (t :: ts)
  = (if component_eqb (t_component t) c then 1 else 0) + count_component c ts.
Proof. unfold count_component; simpl; destruct (component_eqb (t_component t) c); reflexivity. Qed.

(** C3: for every connector list of length N, when its signature is built,
    [create_fl_pipeline] composes a graph of exactly N + 3 tasks: one
    [setup_links] task, one [release_links] task (the teardown), one
    [fl_server] task and N [fl_client] tasks, created in the order of the
    connectors (the k-th client gets the k-th connector's link).  The
    server and every client run after the setup task; the teardown is the
    exit task of the [dsl.ExitHandler] whose group holds the server and all
    N clients, so KFP runs it once they have all reached a terminal state.
    When the client and server components differ, exactly N tasks run the
    client and exactly one runs the server. *)
Theorem create_fl_pipeline_graph c s fl_client fl_server connectors node_enforce sig :
  create_fl_signature c s = Ok sig ->
  exists setup cleanup server clients,
    create_fl_pipeline c s fl_client fl_server connectors node_enforce
    = Ok (mkState (3 + List.length connectors) (setup :: cleanup :: server :: clients)
            (Some (t_id cleanup, t_id server :: map t_id clients)) false)
    /\ t_component setup = CSetupLinks
    /\ t_component cleanup = CReleaseLinks
    /\ t_component server = CUser fl_server
    /\ Forall2 (fun t conn => t_component t = CUser fl_client
                 /\ get_assoc "local_data_connector" (t_args t) = Some (ALit (link conn)))
         clients connectors
    /\ map t_id clients = seq 3 (List.length connectors)
    /\ NoDup (map t_id (setup :: cleanup :: server :: clients))
    /\ count_component CSetupLinks (setup :: cleanup :: server :: clients) = 1
    /\ count_component CReleaseLinks (setup :: cleanup :: server :: clients) = 1
    /\ (fl_client <> fl_server ->
          count_component (CUser fl_server) (setup :: cleanup :: server :: clients) = 1
          /\ count_component (CUser fl_client) (setup :: cleanup :: server :: clients)
             = List.length connectors)
    /\ t_after server = [t_id setup]
    /\ Forall (fun t => t_after t = [t_id setup]) clients
    /\ t_after cleanup = [].
Proof.
  intros H. rewrite (create_fl_pipeline_shape _ _ _ _ _ _ _ H).
  set (clients := client_tasks (CUser fl_client) node_enforce 0
                    (map (fun k => (k, APipelineParam k)) (extras client_req c)) 3 connectors).
  exists setup_task0, cleanup_task1,
    (server_task2 (CUser fl_server) (APipelineParam "number_of_iterations")
       (map (fun k => (k, APipelineParam k)) (extras server_req s))), clients.
  assert (Hids : map t_id clients = seq 3 (List.length connectors))
    by apply client_tasks_ids_seq.
  split; [simpl; rewrite Hids; reflexivity|].
  do 3 (split; [reflexivity|]).
  split.
  { eapply Forall2_impl; [|apply client_tasks_Forall2].
    intros t conn ->; split; reflexivity. }
  split; [exact Hids|].
  split.
  { simpl; rewrite Hids. constructor; [simpl; intros [E|[E|E]]; [discriminate|discriminate|];
      apply in_seq in E; lia|].
    constructor; [simpl; intros [E|E]; [discriminate|]; apply in_seq in E; lia|].
    constructor; [intros E; apply in_seq in E; lia|]. apply seq_NoDup. }
  split; [rewrite !count_component_cons; unfold clients;
          rewrite count_client_tasks; reflexivity|].
  split; [rewrite !count_component_cons; unfold clients;
          rewrite count_client_tasks; reflexivity|].
  split.
  { intros Hne. rewrite !count_component_cons; unfold clients.
    rewrite !count_client_tasks; simpl.
    rewrite !String.eqb_refl.
    destruct (String.eqb_spec fl_client fl_server) as [E|_]; [contradiction|].
    destruct (String.eqb_spec fl_server fl_client) as [E|_]; [congruence|].
    split; reflexivity. }
  split; [reflexivity|]. split; [|reflexivity].
  apply client_tasks_Forall.
  intros id conn; reflexivity.
Qed.

Lemma create_fl_pipeline_graph_witness :
  create_fl_signature Fixtures.client_lr Fixtures.server_epochs
  = Ok [number_of_iterations_param;
        mkParam "lr" POSITIONAL_OR_KEYWORD VEmpty VNone;
        mkParam "epochs" POSITIONAL_OR_KEYWORD VEmpty (VType "int")]
  /\ exists setup cleanup server clients,
    create_fl_pipeline Fixtures.client_lr Fixtures.server_epochs "client" "server"
      [mkConnector (VStr "s3://a") (Some "eu"); mkConnector (VStr "s3://b") None] true
    = Ok (mkState 5 (setup :: cleanup :: server :: clients)
            (Some (t_id cleanup, t_id server :: map t_id clients)) false)
    /\ map t_id clients = [3; 4].
Proof.
  split; [reflexivity|].
  destruct (create_fl_pipeline_graph Fixtures.client_lr Fixtures.server_epochs
              "client" "server"
              [mkConnector (VStr "s3://a") (Some "eu"); mkConnector (VStr "s3://b") None]
              true _ eq_refl)
    as (setup & cleanup & server & clients & Hst & _ & _ & _ & _ & Hids & _).
  exists setup, cleanup, server, clients. split; [exact Hst | exact Hids].
Defined.

(** C6: for every connector, with [node_enforce] true the client task
    created for it carries exactly the node selector [region] set to the
    connector's [region] attribute ([""] when it has none); with
    [node_enforce] false no task of the graph carries a node selector,
    whatever the connectors' regions. *)
Theorem create_fl_pipeline_placement c s fl_client fl_server connectors node_enforce sig :
  create_fl_signature c s = Ok sig ->
  exists st,
    create_fl_pipeline c s fl_client fl_server connectors node_enforce = Ok st
    /\ Forall2 (fun t conn =>
         t_component t = CUser fl_client
         /\ get_assoc "local_data_connector" (t_args t) = Some (ALit (link conn))
         /\ (node_enforce = true ->
               t_node_selectors t
               = [("region", match region conn with Some r => r | None => "" end)])
         /\ (node_enforce = false -> t_node_selectors t = []))
         (client_ops st) connectors
    /\ (node_enforce = false -> Forall (fun t => t_node_selectors t = []) (st_tasks st)).
Proof.
  intros H. rewrite (create_fl_pipeline_shape _ _ _ _ _ _ _ H).
  eexists; split; [reflexivity|]. unfold client_ops; simpl. split.
  - eapply Forall2_impl; [|apply client_tasks_Forall2].
    intros t conn ->; simpl. split; [reflexivity|]. split; [reflexivity|].
    split; intros ->; reflexivity.
  - intros ->. repeat constructor. apply client_tasks_Forall; intros; reflexivity.
Qed.

Lemma create_fl_pipeline_placement_witness :
  create_fl_signature Fixtures.client_plain Fixtures.server_plain
  = Ok [number_of_iterations_param]
  /\ exists st,
    create_fl_pipeline Fixtures.client_plain Fixtures.server_plain "client" "server"
      [mkConnector (VStr "s3://a") (Some "eu")] true = Ok st
    /\ map t_node_selectors (client_ops st) = [[("region", "eu")]].
Proof.
  split; [reflexivity|].
  destruct (create_fl_pipeline_placement Fixtures.client_plain Fixtures.server_plain
              "client" "server" [mkConnector (VStr "s3://a") (Some "eu")] true _ eq_refl)
    as (st & Hst & _ & _).
  exists st; split; [exact Hst|].
  vm_compute in Hst. injection Hst as <-. reflexivity.
Defined.

(** C9: in every graph [fl_pipeline_func] builds from bound arguments
    [args_map], each client task is called with [server_address] set to the
    setup task's [.output] (the service name the setup task is given, which
    is the [app] pod label of the server task, so the service is the
    server's endpoint), [local_data_connector] set to its connector's
    [link], and then each client extra [k] set to [args_map[k]]. *)
Theorem fl_pipeline_func_client_args fl_client fl_server connectors node_enforce
    server_extra client_extra args_map noi :
  get_assoc "number_of_iterations" args_map = Some noi ->
  all_bound args_map server_extra -> all_bound args_map client_extra ->
  exists st setup server,
    build fl_client fl_server connectors node_enforce server_extra client_extra args_map
    = Ok st
    /\ nth_error (st_tasks st) 0 = Some setup
    /\ nth_error (st_tasks st) 2 = Some server
    /\ t_component setup = CSetupLinks
    /\ t_component server = fl_server
    /\ get_assoc "name" (t_args setup) = Some srv_name
    /\ get_assoc "app" (t_pod_labels server) = Some srv_name
    /\ Forall2 (fun t conn =>
         t_args t = ("server_address", ATaskOutput (t_id setup))
                    :: ("local_data_connector", ALit (link conn))
                    :: map (fun k => (k, match get_assoc k args_map with
                                         | Some v => v | None => ALit VNone end))
                           client_extra)
         (client_ops st) connectors.
Proof.
  intros Hn Hs Hc. rewrite (build_shape _ _ _ _ _ _ _ _ Hn Hs Hc).
  do 3 eexists. split; [reflexivity|].
  do 6 (split; [reflexivity|]).
  unfold client_ops; simpl.
  eapply Forall2_impl; [|apply client_tasks_Forall2].
  intros t conn ->; reflexivity.
Qed.

Lemma fl_pipeline_func_client_args_witness :
  get_assoc "number_of_iterations"
    [("number_of_iterations", APipelineParam "number_of_iterations");
     ("lr", APipelineParam "lr")] = Some (APipelineParam "number_of_iterations")
  /\ exists st,
    build (CUser "client") (CUser "server") [mkConnector (VStr "s3://a") None] false
      [] ["lr"]
      [("number_of_iterations", APipelineParam "number_of_iterations");
       ("lr", APipelineParam "lr")] = Ok st
    /\ map t_args (client_ops st)
       = [[("server_address", ATaskOutput 0);
           ("local_data_connector", ALit (VStr "s3://a"));
           ("lr", APipelineParam "lr")]].
Proof.
  split; [reflexivity|].
  destruct (fl_pipeline_func_client_args (CUser "client") (CUser "server")
              [mkConnector (VStr "s3://a") None] false [] ["lr"]
              [("number_of_iterations", APipelineParam "number_of_iterations");
               ("lr", APipelineParam "lr")]
              (APipelineParam "number_of_iterations") eq_refl
              ltac:(intros k []) ltac:(intros k [<-|[]]; discriminate))
    as (st & setup & server & Hst & H0 & _ & _ & _ & _ & _ & Hcl).
  exists st; split; [exact Hst|].
  vm_compute in Hst. injection Hst as <-. reflexivity.
Defined.

End FlPipelineFacts.

(** ** Service lifecycle *)
Module ServicesFacts.
Import Services Fixtures.

(** C7 (as stated, refuted): creating a service whose record already
    exists does not succeed: the 409 conflict of the API server is
    re-raised as a [RuntimeError]. *)
Lemma create_service_claim_counterexample :
  fst (create_service world_with_svc (Ok "kubeflow") (Ok None) None "flserver-1")
  = Raise (RuntimeError ("Exception when creating service: "
                         ++ exc_str (ApiException "409" "Conflict"))).
Proof. reflexivity. Qed.

(** C7 (amended): [create_service(name)] returns [name] whenever it
    returns; when the namespace is found and the API server accepts the
    service, it returns [name] and the service exists afterwards; every
    failure is raised to the caller: an [ApiException] of the call, the 409
    "already exists" conflict included, as a [RuntimeError], any other
    exception of the call or of the namespace lookup unchanged; and
    [setup_links_func], the setup task, has the same outcome. *)
Theorem create_service_outcomes w incluster kubeconfig fault name :
  (forall r w', create_service w incluster kubeconfig fault name = (Ok r, w') -> r = name)
  /\ (forall ns, get_default_namespace incluster kubeconfig = Ok ns -> fault = None ->
        has_service w ns name = false ->
        exists w', create_service w incluster kubeconfig fault name = (Ok name, w')
                   /\ has_service w' ns name = true)
  /\ (forall ns, get_default_namespace incluster kubeconfig = Ok ns -> fault = None ->
        has_service w ns name = true ->
        fst (create_service w incluster kubeconfig fault name)
        = Raise (RuntimeError ("Exception when creating service: "
                               ++ exc_str (ApiException "409" "Conflict"))))
  /\ (forall ns status reason, get_default_namespace incluster kubeconfig = Ok ns ->
        fault = Some (ApiException status reason) ->
        fst (create_service w incluster kubeconfig fault name)
        = Raise (RuntimeError ("Exception when creating service: "
                               ++ exc_str (ApiException status reason))))
  /\ (forall ns e, get_default_namespace incluster kubeconfig = Ok ns ->
        fault = Some e -> is_api_exception e = false ->
        fst (create_service w incluster kubeconfig fault name) = Raise e)
  /\ (forall e, get_default_namespace incluster kubeconfig = Raise e ->
        fst (create_service w incluster kubeconfig fault name) = Raise e)
  /\ fst (setup_links_func w incluster kubeconfig fault name)
     = fst (create_service w incluster kubeconfig fault name).
Proof.
  unfold create_service; repeat split.
  - intros r w'. destruct (get_default_namespace incluster kubeconfig); [|discriminate].
    destruct (create_namespaced_service _ _ _ _) as [|[] ]; try discriminate.
    intros H; injection H as <- _; reflexivity.
  - intros ns Hns -> Hhas. rewrite Hns. unfold create_namespaced_service; simpl.
    unfold has_service in *; simpl in *. rewrite Hhas.
    eexists; split; [reflexivity|]. simpl.
    unfold pair_eqb; simpl; rewrite !String.eqb_refl; reflexivity.
  - intros ns Hns -> Hhas. rewrite Hns. unfold create_namespaced_service; simpl.
    unfold has_service in *; simpl in *. rewrite Hhas. reflexivity.
  - intros ns status reason Hns ->. rewrite Hns. reflexivity.
  - intros ns e Hns -> Hapi. rewrite Hns. simpl.
    destruct e; try reflexivity; discriminate.
  - intros e ->. reflexivity.
  - unfold setup_links_func, create_service.
    destruct (get_default_namespace incluster kubeconfig); [|reflexivity].
    destruct (create_namespaced_service _ _ _ _) as [|[] ]; reflexivity.
Qed.

Lemma create_service_outcomes_witness :
  get_default_namespace (Ok "kubeflow") (Ok None) = Ok "kubeflow"
  /\ has_service (mkWorld [] []) "kubeflow" "flserver-1" = false
  /\ exists w', create_service (mkWorld [] []) (Ok "kubeflow") (Ok None) None "flserver-1"
                = (Ok "flserver-1", w')
                /\ has_service w' "kubeflow" "flserver-1" = true.
Proof.
  split; [reflexivity|]. split; [reflexivity|].
  destruct (create_service_outcomes (mkWorld [] []) (Ok "kubeflow") (Ok None) None "flserver-1")
    as (_ & H2 & _).
  apply (H2 "kubeflow"); reflexivity.
Defined.

(** C8 (as stated, refuted): a failure of the deletion call that is not an
    [ApiException] (here a transport error) is raised out of
    [delete_service]. *)
Lemma delete_service_claim_counterexample :
  fst (delete_service world_with_svc (Ok "kubeflow") (Ok None)
         (Some (OtherException "MaxRetryError" "connection refused")) "flserver-1")
  = Raise (OtherException "MaxRetryError" "connection refused").
Proof. reflexivity. Qed.

(** C8 (amended): once the namespace is found, [delete_service(name)]
    returns normally whenever the deletion call succeeds or fails with an
    [ApiException] (a missing service, 404, included); such a failure is
    printed as "Exception when deleting service: ..." and swallowed.
    Exceptions of other classes, from the deletion call or from the
    namespace lookup, propagate. *)
Theorem delete_service_outcomes w incluster kubeconfig fault name :
  (forall ns, get_default_namespace incluster kubeconfig = Ok ns ->
     (forall e, fault = Some e -> is_api_exception e = true) ->
     fst (delete_service w incluster kubeconfig fault name) = Ok tt)
  /\ (forall ns status reason, get_default_namespace incluster kubeconfig = Ok ns ->
        fault = Some (ApiException status reason) ->
        last (stdout (snd (delete_service w incluster kubeconfig fault name))) ""
        = "Exception when deleting service: " ++ exc_str (ApiException status reason))
  /\ (forall ns e, get_default_namespace incluster kubeconfig = Ok ns ->
        fault = Some e -> is_api_exception e = false ->
        fst (delete_service w incluster kubeconfig fault name) = Raise e)
  /\ (forall e, get_default_namespace incluster kubeconfig = Raise e ->
        fst (delete_service w incluster kubeconfig fault name) = Raise e).
Proof.
  unfold delete_service; repeat split.
  - intros ns Hns Hf. rewrite Hns. unfold delete_namespaced_service.
    destruct fault as [e|].
    + specialize (Hf e eq_refl). destruct e; try discriminate; reflexivity.
    + destruct (has_service _ _ _); reflexivity.
  - intros ns status reason Hns ->. rewrite Hns; simpl.
    rewrite last_last. reflexivity.
  - intros ns e Hns -> Hapi. rewrite Hns; simpl.
    destruct e; try reflexivity; discriminate.
  - intros e ->; reflexivity.
Qed.

Lemma delete_service_outcomes_witness :
  get_default_namespace (Ok "kubeflow") (Ok None) = Ok "kubeflow"
  /\ fst (delete_service (mkWorld [] []) (Ok "kubeflow") (Ok None) None "flserver-1") = Ok tt.
Proof.
  split; [reflexivity|].
  destruct (delete_service_outcomes (mkWorld [] []) (Ok "kubeflow") (Ok None) None "flserver-1")
    as (H1 & _).
  apply (H1 "kubeflow"); [reflexivity | intros e E; discriminate].
Defined.

End ServicesFacts.

(** ** Readiness poller *)
Module ReadinessFacts.
Import Readiness.

Lemma wait_exponential_backoff i :
  (1 <= i)%nat -> wait_exponential 2 1 10 i = backoff 2 10 i.
Proof.
  intros Hi. unfold wait_exponential, backoff.
  assert (0 < 2 ^ (Z.of_nat i - 1))%Z by (apply Z.pow_pos_nonneg; lia).
  lia.
Qed.

Lemma backoff_mono i j :
  (1 <= i <= j)%nat -> (backoff 2 10 i <= backoff 2 10 j <= 10)%Z.
Proof.
  intros Hij. unfold backoff. split; [|apply Z.le_min_r].
  apply Z.min_le_compat_r, Z.mul_le_mono_nonneg_l; [lia|].
  apply Z.pow_le_mono_r; lia.
Qed.

Lemma probe_count_backoff i n : probe_count (probes_with_backoff i n) = n.
Proof.
  revert i; induction n as [|[|n] IH]; intros i; [reflexivity|reflexivity|].
  change (probes_with_backoff i (S (S n)))
    with (Probe i :: Sleep (backoff 2 10 i) :: probes_with_backoff (S i) (S n)).
  change (probe_count (Probe i :: Sleep (backoff 2 10 i) :: probes_with_backoff (S i) (S n)))
    with (S (probe_count (probes_with_backoff (S i) (S n)))).
  rewrite IH; reflexivity.
Qed.

Lemma retry_ready_at is_ready isvc_name d :
  forall i fuel,
    (1 <= i)%nat -> (i + d <= 30)%nat -> (d <= fuel)%nat ->
    (forall j, (i <= j < i + d)%nat -> is_ready j = false) ->
    is_ready (i + d)%nat = true ->
    retry_assert_isvc_created fuel is_ready isvc_name i
    = (probes_with_backoff i (S d), Ok tt).
Proof.
  induction d as [|d IH]; intros i fuel Hi H30 Hf Hnot Hready.
  - destruct fuel; simpl; rewrite Nat.add_0_r in Hready; rewrite Hready; reflexivity.
  - destruct fuel as [|fuel]; [lia|]. cbn -[stop_after_attempt wait_exponential].
    rewrite (Hnot i) by lia.
    replace (stop_after_attempt 30 i) with false by (symmetry; apply Nat.leb_gt; lia).
    rewrite (IH (S i) fuel)
      by first [lia | intros j Hj; apply Hnot; lia | rewrite <- Hready; f_equal; lia].
    rewrite wait_exponential_backoff by exact Hi. reflexivity.
Qed.

Lemma retry_never_ready is_ready isvc_name d :
  forall i fuel,
    (1 <= i)%nat -> (i + d = 30)%nat -> (d <= fuel)%nat ->
    (forall j, (i <= j <= 30)%nat -> is_ready j = false) ->
    retry_assert_isvc_created fuel is_ready isvc_name i
    = (probes_with_backoff i (S d), Raise (AssertionError (assert_message isvc_name))).
Proof.
  induction d as [|d IH]; intros i fuel Hi H30 Hf Hnot.
  - rewrite Nat.add_0_r in H30; subst i.
    destruct fuel; simpl; rewrite (Hnot 30%nat) by lia; reflexivity.
  - destruct fuel as [|fuel]; [lia|]. cbn -[stop_after_attempt wait_exponential].
    rewrite (Hnot i) by lia.
    replace (stop_after_attempt 30 i) with false by (symmetry; apply Nat.leb_gt; lia).
    rewrite (IH (S i) fuel) by first [lia | intros j Hj; apply Hnot; lia].
    rewrite wait_exponential_backoff by exact Hi. reflexivity.
Qed.

(** C4: the delay slept after the i-th failed probe is
    [min(2 * 2^(i-1), 10)] (tenacity's floor of 1 second never binds), so
    the delays are non-decreasing and at most 10 seconds; if the service
    first reports ready at the k-th probe, k <= 30, the poller probes
    exactly k times, sleeping those delays in between, and returns the
    service's address; if it never reports ready, the poller probes
    exactly 30 times and raises an [AssertionError] whose message names the
    service. *)
Theorem get_served_model_url_polling is_ready isvc_name :
  (forall i j, (1 <= i <= j)%nat ->
     wait_exponential 2 1 10 i = backoff 2 10 i
     /\ (backoff 2 10 i <= backoff 2 10 j <= 10)%Z)
  /\ (forall k url, (1 <= k <= 30)%nat ->
        (forall j, (1 <= j < k)%nat -> is_ready j = false) -> is_ready k = true ->
        get_served_model_url is_ready (Some url) isvc_name = (probes_with_backoff 1 k, Ok url)
        /\ probe_count (probes_with_backoff 1 k) = k)
  /\ (forall url, (forall j, (1 <= j <= 30)%nat -> is_ready j = false) ->
        get_served_model_url is_ready url isvc_name
        = (probes_with_backoff 1 30,
           Raise (AssertionError ("Failed to create Inference Service " ++ isvc_name ++ ".")))
        /\ probe_count (probes_with_backoff 1 30) = 30%nat).
Proof.
  split; [|split].
  - intros i j Hij. split; [apply wait_exponential_backoff; lia | apply backoff_mono; lia].
  - intros k url Hk Hnot Hready. split; [|apply probe_count_backoff].
    unfold get_served_model_url.
    destruct k as [|k]; [lia|].
    rewrite (retry_ready_at is_ready isvc_name k 1 30)
      by first [lia | intros j Hj; apply Hnot; lia | exact Hready].
    reflexivity.
  - intros url Hnot. split; [|apply probe_count_backoff].
    unfold get_served_model_url.
    rewrite (retry_never_ready is_ready isvc_name 29 1 30) by first [lia | exact Hnot].
    reflexivity.
Qed.

Lemma get_served_model_url_polling_witness :
  (forall j, (1 <= j < 3)%nat -> Nat.eqb j 3 = false) /\ Nat.eqb 3 3 = true
  /\ get_served_model_url (fun j => Nat.eqb j 3) (Some "http://model.kubeflow") "model"
     = ([Probe 1; Sleep 2; Probe 2; Sleep 4; Probe 3], Ok "http://model.kubeflow").
Proof.
  assert (Hnot : forall j, (1 <= j < 3)%nat -> Nat.eqb j 3 = false)
    by (intros j Hj; apply Nat.eqb_neq; lia).
  split; [exact Hnot|]. split; [reflexivity|].
  destruct (get_served_model_url_polling (fun j => Nat.eqb j 3) "model") as (_ & H2 & _).
  destruct (H2 3%nat "http://model.kubeflow") as [H _]; [lia | exact Hnot | reflexivity |].
  rewrite H. reflexivity.
Defined.

End ReadinessFacts.

(** ** Run poller *)
Module RunPollerFacts.
Import RunPoller.

Lemma poll_loop_trace fuel get_run timer_in_sec rid q evs q' :
  poll_loop fuel get_run timer_in_sec rid q = Some (evs, q') ->
  PollTrace timer_in_sec rid evs.
Proof.
  revert q evs q'; induction fuel as [|fuel IH]; intros q evs q' H; simpl in H;
    [discriminate|].
  destruct (is_terminal (get_run q)) eqn:Ht.
  - injection H as <- _. constructor; exact Ht.
  - destruct (poll_loop fuel get_run timer_in_sec rid (S (S q))) as [[evs' q3]|] eqn:Hr;
      [|discriminate].
    injection H as <- _. constructor; [exact Ht|]. exact (IH _ _ _ Hr).
Qed.

Lemma is_terminal_running : is_terminal "Running" = false.
Proof. reflexivity. Qed.

Lemma poll_running_then_succeeded n timer_in_sec rid d :
  forall i fuel, i + d = n -> (d < fuel)%nat ->
  exists evs,
    poll_loop fuel (running_then_succeeded (2 * n)) timer_in_sec rid (2 * i)
    = Some (evs, S (2 * n))
    /\ sleep_count evs = d /\ query_count evs = S (2 * d).
Proof.
  induction d as [|d IH]; intros i fuel Hn Hf; destruct fuel as [|fuel]; try lia.
  - rewrite Nat.add_0_r in Hn; subst i. simpl.
    unfold running_then_succeeded at 1. rewrite Nat.ltb_irrefl. simpl.
    eexists; split; [reflexivity|]. split; reflexivity.
  - destruct (IH (S i) fuel) as (evs & Hevs & Hs & Hq); [lia|lia|].
    replace (2 * S i) with (S (S (2 * i))) in Hevs by lia.
    cbn [poll_loop is_run_finished get_run_status].
    assert (H0 : running_then_succeeded (2 * n) (2 * i) = "Running")
      by (unfold running_then_succeeded; replace (Nat.ltb (2 * i) (2 * n)) with true
            by (symmetry; apply Nat.ltb_lt; lia); reflexivity).
    assert (H1 : running_then_succeeded (2 * n) (S (2 * i)) = "Running")
      by (unfold running_then_succeeded; replace (Nat.ltb (S (2 * i)) (2 * n)) with true
            by (symmetry; apply Nat.ltb_lt; lia); reflexivity).
    rewrite H0, H1, is_terminal_running, Hevs.
    eexists; split; [reflexivity|].
    unfold sleep_count, query_count in *; simpl. rewrite Hs, Hq. split; [reflexivity | lia].
Qed.

(** C5 (as stated, refuted): the loop does not return the final status.
    Two runs, one ending [Succeeded] and one ending [Failed], give the same
    return value: the [run_details] of the submission. *)
Lemma create_run_claim_counterexample :
  create_run_from_pipeline_func 5 (running_then_succeeded 2) 10 (mkRunDetails "r1")
  = Some ([Query "Running"; Query "Running"; Report "Run r1 status: Running";
           SleepFor 10; Query "Succeeded"], mkRunDetails "r1")
  /\ create_run_from_pipeline_func 5 running_then_failed 10 (mkRunDetails "r1")
  = Some ([Query "Running"; Query "Running"; Report "Run r1 status: Running";
           SleepFor 10; Query "Failed"], mkRunDetails "r1").
Proof. split; reflexivity. Qed.

(** C5 (amended): whenever the loop stops, its trace is a sequence of
    iterations, each one after a loop test that saw a non-terminal status,
    printing the current status before sleeping the fixed [TIMER_IN_SEC],
    ended by a loop test that saw one of Succeeded, Failed, Skipped, Error;
    the function then returns the [run_details] of the submission
    unchanged, not the final status, and raises nothing itself.  There is
    no attempt cap: a run that stays [Running] for any number n of
    iterations is polled through n sleeps and then left.  With [get_run]
    answering Running, Running, Succeeded, exactly 3 queries are made. *)
Theorem create_run_polling timer_in_sec run_details :
  (forall fuel get_run evs r,
     create_run_from_pipeline_func fuel get_run timer_in_sec run_details = Some (evs, r) ->
     r = run_details /\ PollTrace timer_in_sec (run_id run_details) evs)
  /\ (forall n fuel, (n < fuel)%nat ->
        exists evs,
          create_run_from_pipeline_func fuel (running_then_succeeded (2 * n)) timer_in_sec
            run_details = Some (evs, run_details)
          /\ sleep_count evs = n)
  /\ (exists evs,
        create_run_from_pipeline_func 3 (running_then_succeeded 2) timer_in_sec run_details
        = Some (evs, run_details)
        /\ query_count evs = 3%nat
        /\ last evs (Query "") = Query "Succeeded").
Proof.
  split; [|split].
  - intros fuel get_run evs r. unfold create_run_from_pipeline_func.
    destruct (poll_loop _ _ _ _ _) as [[evs' q]|] eqn:H; [|discriminate].
    intros E; injection E as <- <-. split; [reflexivity|].
    exact (poll_loop_trace _ _ _ _ _ _ _ H).
  - intros n fuel Hf. unfold create_run_from_pipeline_func.
    destruct (poll_running_then_succeeded n timer_in_sec (run_id run_details) n 0 fuel)
      as (evs & Hevs & Hs & _); [lia|lia|].
    rewrite Nat.mul_0_r in Hevs. rewrite Hevs. eexists; split; [reflexivity|exact Hs].
  - eexists; split; [reflexivity|]. split; reflexivity.
Qed.

Lemma create_run_polling_witness :
  (2 < 3)%nat
  /\ exists evs,
       create_run_from_pipeline_func 3 (running_then_succeeded 4) 10 (mkRunDetails "r1")
       = Some (evs, mkRunDetails "r1") /\ sleep_count evs = 2%nat.
Proof.
  split; [lia|].
  destruct (create_run_polling 10 (mkRunDetails "r1")) as (_ & H2 & _).
  exact (H2 2%nat 3%nat ltac:(lia)).
Defined.

(** C10: every iteration of the loop whose test saw a non-terminal status
    makes a second [get_run] query and prints the status that second query
    answered, then sleeps a full [TIMER_IN_SEC]; the printed status can
    already be terminal (here [Succeeded] after a [Running] test), and the
    loop still sleeps before testing again. *)
Theorem poll_loop_double_query timer_in_sec :
  (forall fuel get_run rid q evs q',
     poll_loop fuel get_run timer_in_sec rid q = Some (evs, q') ->
     PollTrace timer_in_sec rid evs)
  /\ create_run_from_pipeline_func 3 (running_then_succeeded 1) timer_in_sec
       (mkRunDetails "r1")
     = Some ([Query "Running"; Query "Succeeded"; Report "Run r1 status: Succeeded";
              SleepFor timer_in_sec; Query "Succeeded"], mkRunDetails "r1").
Proof.
  split; [intros fuel get_run rid; apply poll_loop_trace | reflexivity].
Qed.

Lemma poll_loop_double_query_witness :
  poll_loop 3 (running_then_succeeded 1) 10 "r1" 0
  = Some ([Query "Running"; Query "Succeeded"; Report "Run r1 status: Succeeded";
           SleepFor 10; Query "Succeeded"], 3%nat)
  /\ PollTrace 10 "r1" [Query "Running"; Query "Succeeded"; Report "Run r1 status: Succeeded";
                        SleepFor 10; Query "Succeeded"].
Proof.
  split; [reflexivity|].
  destruct (poll_loop_double_query 10) as [H _].
  exact (H 3%nat (running_then_succeeded 1) "r1" 0%nat _ 3%nat eq_refl).
Defined.

End RunPollerFacts.

(** ** Service lifecycle: namespace lookup and create/delete sequences *)
Module ServicesExtraFacts.
Import Services.

Lemma filter_absent p l :
  existsb (pair_eqb p) l = false -> filter (fun q => negb (pair_eqb p q)) l = l.
Proof.
  induction l as [|q r IH]; simpl; [reflexivity|].
  intros H; apply orb_false_iff in H as [Hq Hr].
  rewrite Hq; simpl; rewrite IH by exact Hr; reflexivity.
Qed.

Lemma filter_removes p l :
  existsb (pair_eqb p) (filter (fun q => negb (pair_eqb p q)) l) = false.
Proof.
  induction l as [|q r IH]; simpl; [reflexivity|].
  destruct (pair_eqb p q) eqn:E; simpl; [exact IH|].
  rewrite E, IH; reflexivity.
Qed.

Lemma pair_eqb_refl p : pair_eqb p p = true.
Proof. unfold pair_eqb; rewrite !String.eqb_refl; reflexivity. Qed.

(** [get_default_namespace] never raises a [ConfigException]: an error of
    the in-cluster lookup other than [FileNotFoundError] or
    [ConfigException] is raised unchanged, and after one of those two the
    only errors raised are those of the kubeconfig lookup other than
    [ConfigException]. *)
Theorem get_default_namespace_errors incluster kubeconfig e :
  get_default_namespace incluster kubeconfig = Raise e ->
  (forall m, e <> ConfigException m)
  /\ ((incluster = Raise e /\ forall m, e <> FileNotFoundError m)
      \/ ((exists m, incluster = Raise (FileNotFoundError m)
                     \/ incluster = Raise (ConfigException m))
          /\ kubeconfig = Raise e)).
Proof.
  unfold get_default_namespace.
  destruct incluster as [ns|ei]; [discriminate|].
  destruct ei; intros H;
    try (injection H as <-;
         split; [intros m0; discriminate | left; split; [reflexivity | intros m0; discriminate]]);
    (destruct kubeconfig as [[n|]|ek]; try discriminate;
     destruct ek; try discriminate; injection H as <-;
     (split; [intros m0; discriminate
             | right; split; [eexists; first [left; reflexivity | right; reflexivity]
                             | reflexivity]])).
Qed.

Lemma get_default_namespace_errors_witness :
  get_default_namespace (Raise (FileNotFoundError "namespace"))
    (Raise (OtherException "TypeError" "'NoneType' object is not subscriptable"))
  = Raise (OtherException "TypeError" "'NoneType' object is not subscriptable")
  /\ forall m, OtherException "TypeError" "'NoneType' object is not subscriptable"
               <> ConfigException m.
Proof.
  split; [reflexivity|].
  exact (proj1 (get_default_namespace_errors (Raise (FileNotFoundError "namespace"))
                  (Raise (OtherException "TypeError" "'NoneType' object is not subscriptable"))
                  _ eq_refl)).
Defined.

(** Where the namespace comes from: the in-cluster service account when
    that lookup succeeds; after a [FileNotFoundError] or a
    [ConfigException] there, the current kubeconfig context's namespace,
    or ["default"] when the context has none or the kubeconfig raises a
    [ConfigException]. *)
Theorem get_default_namespace_source incluster kubeconfig ns :
  get_default_namespace incluster kubeconfig = Ok ns ->
  incluster = Ok ns
  \/ ((exists m, incluster = Raise (FileNotFoundError m)
                 \/ incluster = Raise (ConfigException m))
      /\ (kubeconfig = Ok (Some ns)
          \/ (ns = "default"
              /\ (kubeconfig = Ok None \/ exists m, kubeconfig = Raise (ConfigException m))))).
Proof.
  unfold get_default_namespace.
  destruct incluster as [n|ei]; [intros H; injection H as <-; left; reflexivity|].
  intros H; right.
  destruct ei; try discriminate;
    (split; [eexists; first [left; reflexivity | right; reflexivity]|]);
    (destruct kubeconfig as [[n|]|ek];
     [injection H as <-; left; reflexivity
     | injection H as <-; right; split; [reflexivity | left; reflexivity]
     | destruct ek; try discriminate; injection H as <-;
       right; split; [reflexivity | right; eexists; reflexivity]]).
Qed.

Lemma get_default_namespace_source_witness :
  get_default_namespace (Raise (ConfigException "not in cluster")) (Ok None) = Ok "default"
  /\ (@Raise string (ConfigException "not in cluster") = Ok "default"
      \/ ((exists m, @Raise string (ConfigException "not in cluster")
                       = Raise (FileNotFoundError m)
                     \/ @Raise string (ConfigException "not in cluster")
                        = Raise (ConfigException m))
          /\ (@Ok (option string) None = Ok (Some "default")
              \/ ("default" = "default"
                  /\ (@Ok (option string) None = Ok None
                      \/ exists m, @Ok (option string) None = Raise (ConfigException m)))))).
Proof.
  split; [reflexivity|].
  exact (get_default_namespace_source (Raise (ConfigException "not in cluster")) (Ok None)
           "default" eq_refl).
Defined.

(** A second [create_service] of the same name, with the same namespace
    lookup, after one that succeeded, is refused: the 409 conflict comes
    back as a [RuntimeError] and no service is added. *)
Theorem create_service_twice w incluster kubeconfig name w1 :
  create_service w incluster kubeconfig None name = (Ok name, w1) ->
  fst (create_service w1 incluster kubeconfig None name)
  = Raise (RuntimeError ("Exception when creating service: "
                         ++ exc_str (ApiException "409" "Conflict")))
  /\ services (snd (create_service w1 incluster kubeconfig None name)) = services w1.
Proof.
  unfold create_service.
  destruct (get_default_namespace incluster kubeconfig) as [ns|e]; [|discriminate].
  unfold create_namespaced_service; simpl.
  destruct (has_service _ ns name) eqn:Hh; [discriminate|].
  intros H; injection H as <-; simpl.
  unfold has_service; simpl. rewrite pair_eqb_refl. simpl.
  split; reflexivity.
Qed.

Lemma create_service_twice_witness :
  create_service (mkWorld [] []) (Ok "kubeflow") (Ok None) None "flserver-1"
  = (Ok "flserver-1",
     mkWorld [("kubeflow", "flserver-1")]
       ["Creating service in namespace 'kubeflow'...";
        "Service 'flserver-1' created successfully in namespace 'kubeflow'."])
  /\ fst (create_service
            (mkWorld [("kubeflow", "flserver-1")]
               ["Creating service in namespace 'kubeflow'...";
                "Service 'flserver-1' created successfully in namespace 'kubeflow'."])
            (Ok "kubeflow") (Ok None) None "flserver-1")
     = Raise (RuntimeError ("Exception when creating service: "
                            ++ exc_str (ApiException "409" "Conflict")))
  /\ services (snd (create_service
            (mkWorld [("kubeflow", "flserver-1")]
               ["Creating service in namespace 'kubeflow'...";
                "Service 'flserver-1' created successfully in namespace 'kubeflow'."])
            (Ok "kubeflow") (Ok None) None "flserver-1"))
     = [("kubeflow", "flserver-1")].
Proof.
  split; [reflexivity|].
  apply (create_service_twice (mkWorld [] []) (Ok "kubeflow") (Ok None) "flserver-1").
  reflexivity.
Defined.

(** Setup then teardown: when the namespace is found and no service of
    that name exists there, [create_service] followed by [delete_service]
    (the setup and release tasks of the FL pipeline) both return normally
    and leave the services as they were, with four lines printed. *)
Theorem create_delete_round_trip w incluster kubeconfig ns name :
  get_default_namespace incluster kubeconfig = Ok ns ->
  has_service w ns name = false ->
  fst (create_service w incluster kubeconfig None name) = Ok name
  /\ fst (delete_service (snd (create_service w incluster kubeconfig None name))
            incluster kubeconfig None name) = Ok tt
  /\ snd (delete_service (snd (create_service w incluster kubeconfig None name))
            incluster kubeconfig None name)
     = mkWorld (services w)
         (app (stdout w)
          ["Creating service in namespace '" ++ ns ++ "'...";
           "Service '" ++ name ++ "' created successfully in namespace '" ++ ns ++ "'.";
           "Deleting service '" ++ name ++ "' from namespace '" ++ ns ++ "'...";
           "Service '" ++ name ++ "' deleted successfully from namespace '" ++ ns ++ "'."]).
Proof.
  intros Hns Hh. unfold create_service, delete_service. rewrite Hns.
  unfold create_namespaced_service, delete_namespaced_service, has_service, print in *.
  cbn -[String.append pair_eqb]. rewrite Hh.
  cbn -[String.append pair_eqb]. rewrite pair_eqb_refl.
  cbn -[String.append pair_eqb].
  rewrite filter_absent by exact Hh.
  rewrite <- !app_assoc. repeat split; reflexivity.
Qed.

Lemma create_delete_round_trip_witness :
  get_default_namespace (Ok "kubeflow") (Ok None) = Ok "kubeflow"
  /\ has_service (mkWorld [("kubeflow", "other")] []) "kubeflow" "flserver-1" = false
  /\ snd (delete_service
            (snd (create_service (mkWorld [("kubeflow", "other")] []) (Ok "kubeflow")
                    (Ok None) None "flserver-1"))
            (Ok "kubeflow") (Ok None) None "flserver-1")
     = mkWorld [("kubeflow", "other")]
         ["Creating service in namespace 'kubeflow'...";
          "Service 'flserver-1' created successfully in namespace 'kubeflow'.";
          "Deleting service 'flserver-1' from namespace 'kubeflow'...";
          "Service 'flserver-1' deleted successfully from namespace 'kubeflow'."].
Proof.
  split; [reflexivity|]. split; [reflexivity|].
  destruct (create_delete_round_trip (mkWorld [("kubeflow", "other")] []) (Ok "kubeflow")
              (Ok None) "kubeflow" "flserver-1" eq_refl eq_refl) as (_ & _ & H).
  exact H.
Defined.



End ServicesExtraFacts.

(** ** How the signature merger fails *)
Module SigMergeExtraFacts.
Import SigMerge SigMergeFacts.

Lemma signature_check_fresh top sd seen ps :
  signature_check top sd seen ps = Ok tt -> forall p, In p ps -> ~ In (p_name p) seen.
Proof.
  revert top sd seen; induction ps as [|q r IH]; intros top sd seen H p Hp; [destruct Hp|].
  simpl in H.
  destruct (Nat.ltb _ top); [discriminate|].
  destruct (_ && _ && sd); [discriminate|].
  destruct (str_mem (p_name q) seen) eqn:Hm; [discriminate|].
  destruct Hp as [<-|Hp].
  - apply str_mem_false; exact Hm.
  - intros Hin. apply (IH _ _ _ H p Hp). right; exact Hin.
Qed.

Lemma signature_check_defaults c s names sd seen :
  signature_check 1 sd seen (map (merged_extra c s) names) = Ok tt ->
  defaults_ordered sd (map (default_of c s) names) = true.
Proof.
  revert sd seen; induction names as [|n r IH]; intros sd seen H; [reflexivity|].
  simpl in H |- *. unfold merged_extra at 1 in H; simpl in H.
  destruct (is_empty (default_of c s n)) eqn:He; simpl in H.
  - destruct sd; [discriminate|]. simpl.
    destruct (str_mem n seen); [discriminate|]. exact (IH _ _ H).
  - destruct (str_mem n seen); [discriminate|]. rewrite orb_true_r in H. exact (IH _ _ H).
Qed.

Lemma signature_check_errors c s names sd seen e :
  NoDup names ->
  (forall n, In n names -> In n seen -> n = "number_of_iterations") ->
  signature_check 1 sd seen (map (merged_extra c s) names) = Raise e ->
  e = ValueError "non-default argument follows default argument"
  \/ e = ValueError "duplicate parameter name: 'number_of_iterations'".
Proof.
  revert sd seen; induction names as [|n r IH]; intros sd seen Hnd Hseen H;
    [discriminate|].
  inversion Hnd as [|? ? Hnr Hndr]; subst.
  simpl in H. unfold merged_extra at 1 in H; simpl in H.
  destruct (is_empty (default_of c s n) && sd) eqn:Hd.
  - injection H as <-; left; reflexivity.
  - destruct (str_mem n seen) eqn:Hm.
    + injection H as <-. right. apply str_mem_In in Hm.
      rewrite (Hseen n (or_introl eq_refl) Hm). reflexivity.
    + apply (IH _ _ Hndr) in H; [exact H|].
      intros m Hm' [E|E]; [subst; contradiction|].
      exact (Hseen m (or_intror Hm') E).
Qed.

Lemma create_fl_signature_check c s :
  create_fl_signature c s
  = (_ <- signature_check 1 false ["number_of_iterations"]
            (map (merged_extra c s) (merged_extra_names c s)) ;;
     Ok (number_of_iterations_param :: map (merged_extra c s) (merged_extra_names c s))).
Proof.
  unfold create_fl_signature.
  change (dict_fromkeys (extras client_req c ++ extras server_req s))
    with (merged_extra_names c s).
  rewrite map_result_extras by apply merged_names_declared.
  reflexivity.
Qed.

(** [create_fl_pipeline] fails exactly when the client declares its own
    [number_of_iterations] parameter (it clashes with the one the merger
    prepends) or an extra without a default comes after an extra with a
    default; the error is then a [ValueError] of [inspect.Signature], and
    no other exception is raised. *)
Theorem create_fl_signature_failures c s :
  (forall e, create_fl_signature c s = Raise e ->
     e = ValueError "non-default argument follows default argument"
     \/ e = ValueError "duplicate parameter name: 'number_of_iterations'")
  /\ ((exists e, create_fl_signature c s = Raise e)
      <-> In "number_of_iterations" (extras client_req c)
          \/ defaults_ordered false (map (default_of c s) (merged_extra_names c s)) = false).
Proof.
  split; [|split].
  - intros e. rewrite create_fl_signature_check.
    destruct (signature_check _ _ _ _) as [[]|e'] eqn:H; simpl; [discriminate|].
    intros E; injection E as <-.
    apply (signature_check_errors c s (merged_extra_names c s) false
             ["number_of_iterations"]); [apply dedup_aux_NoDup| |exact H].
    intros n _ [E|[]]; symmetry; exact E.
  - intros [e He].
    destruct (In_dec string_dec "number_of_iterations" (extras client_req c)) as [Hin|Hin];
      [left; exact Hin|].
    destruct (defaults_ordered false (map (default_of c s) (merged_extra_names c s))) eqn:Hd;
      [|right; reflexivity].
    rewrite create_fl_signature_shape in He by assumption. discriminate.
  - intros Hfail. rewrite create_fl_signature_check.
    destruct (signature_check _ _ _ _) as [[]|e] eqn:H; simpl; [|eexists; reflexivity].
    exfalso. destruct Hfail as [Hin|Hd].
    + assert (Hm : In "number_of_iterations" (merged_extra_names c s)).
      { unfold merged_extra_names, dict_fromkeys. apply dedup_aux_In.
        split; [apply in_or_app; left; exact Hin | intros []]. }
      apply (signature_check_fresh _ _ _ _ H (merged_extra c s "number_of_iterations"));
        [apply in_map; exact Hm | left; reflexivity].
    + apply signature_check_defaults in H. congruence.
Qed.

End SigMergeExtraFacts.

(** ** The only failure of tracing the pipeline function *)
Module KfpDslExtraFacts.
Import KfpDsl KfpDslFacts.

Lemma kwargs_of_cases args_map ks :
  all_bound args_map ks
  \/ exists k, In k ks /\ get_assoc k args_map = None
               /\ forall st, kwargs_of args_map ks st = Raise (KeyError k).
Proof.
  induction ks as [|k r IH]; [left; intros k []|].
  destruct (get_assoc k args_map) as [v|] eqn:Hk.
  - destruct IH as [Hb|(k' & Hin & Hk' & Hr)].
    + left. intros k' [<-|Hin]; [congruence | exact (Hb k' Hin)].
    + right. exists k'. split; [right; exact Hin|]. split; [exact Hk'|].
      intros st. simpl. unfold mbind at 1, lookup_arg. rewrite Hk.
      unfold ret at 1. unfold mbind. rewrite Hr. reflexivity.
  - right. exists k. split; [left; reflexivity|]. split; [exact Hk|].
    intros st. simpl. unfold mbind at 1, lookup_arg. rewrite Hk. reflexivity.
Qed.



End KfpDslExtraFacts.

(** ** The readiness poller's time budget *)
Module ReadinessExtraFacts.
Import Readiness ReadinessFacts Serving.

Lemma wait_exponential_pos a : (1 <= wait_exponential 2 1 10 a)%Z.
Proof. unfold wait_exponential. lia. Qed.

Lemma waits_from_nonneg a n : (0 <= waits_from a n)%Z.
Proof.
  revert a; induction n as [|n IH]; intros a; simpl; [lia|].
  specialize (IH (S a)); pose proof (wait_exponential_pos a); lia.
Qed.

Lemma retry_sleep_bound is_ready isvc_name fuel :
  forall a, (1 <= a)%nat ->
  (total_sleep (fst (retry_assert_isvc_created fuel is_ready isvc_name a))
   <= waits_from a (30 - a))%Z.
Proof.
  induction fuel as [|fuel IH]; intros a Ha.
  - cbn -[stop_after_attempt wait_exponential waits_from].
    destruct (is_ready a), (stop_after_attempt 30 a); apply waits_from_nonneg.
  - remember (30 - a)%nat as m eqn:Hm.
    cbn -[stop_after_attempt wait_exponential].
    destruct (is_ready a); [apply waits_from_nonneg|].
    destruct (stop_after_attempt 30 a) eqn:Hs; [apply waits_from_nonneg|].
    unfold stop_after_attempt in Hs. apply Nat.leb_gt in Hs.
    specialize (IH (S a) ltac:(lia)).
    destruct (retry_assert_isvc_created fuel is_ready isvc_name (S a)) as [evs r].
    unfold total_sleep in IH |- *. cbn [fst fold_right] in IH |- *.
    replace m with (S (30 - S a)) by lia. cbn [waits_from]. lia.
Qed.

(** Whatever the service answers, [get_served_model_url] sleeps at most
    274 seconds in total (2 + 4 + 8 and then 10 seconds after each of the
    following failed probes, 29 sleeps in all), and exactly that long when
    the service never reports ready. *)
Theorem get_served_model_url_sleep_budget is_ready url isvc_name :
  (total_sleep (fst (Readiness.get_served_model_url is_ready url isvc_name)) <= 274)%Z
  /\ ((forall j, (1 <= j <= 30)%nat -> is_ready j = false) ->
      total_sleep (fst (Readiness.get_served_model_url is_ready url isvc_name)) = 274%Z).
Proof.
  split.
  - unfold Readiness.get_served_model_url.
    pose proof (retry_sleep_bound is_ready isvc_name 30 1 ltac:(lia)) as H.
    destruct (retry_assert_isvc_created 30 is_ready isvc_name 1) as [evs r].
    simpl in H. change (waits_from 1 29) with 274%Z in H.
    destruct r; [destruct url|]; simpl; exact H.
  - intros Hnot. unfold Readiness.get_served_model_url.
    rewrite (retry_never_ready is_ready isvc_name 29 1 30) by first [lia | exact Hnot].
    reflexivity.
Qed.

End ReadinessExtraFacts.

(** ** What the run poller costs *)
Module RunPollerExtraFacts.
Import RunPoller.

(** Whenever the polling loop stops, it made one [get_run] query more than
    twice the number of sleeps (the loop test and the status query of each
    iteration, and the final test), and those are all the queries it made. *)
Theorem poll_loop_query_accounting fuel get_run timer_in_sec rid q evs q' :
  poll_loop fuel get_run timer_in_sec rid q = Some (evs, q') ->
  query_count evs = S (2 * sleep_count evs) /\ q' = q + query_count evs.
Proof.
  revert q evs q'; induction fuel as [|fuel IH]; intros q evs q' H; simpl in H;
    [discriminate|].
  destruct (is_terminal (get_run q)).
  - injection H as <- <-. unfold query_count, sleep_count; simpl. lia.
  - destruct (poll_loop fuel get_run timer_in_sec rid (S (S q))) as [[evs' q3]|] eqn:Hr;
      [|discriminate].
    injection H as <- <-. destruct (IH _ _ _ Hr) as [H1 H2].
    unfold query_count, sleep_count in *; simpl. lia.
Qed.

Lemma poll_loop_query_accounting_witness :
  poll_loop 5 (running_then_succeeded 4) 10 "r1" 0
  = Some ([Query "Running"; Query "Running"; Report "Run r1 status: Running"; SleepFor 10;
           Query "Running"; Query "Running"; Report "Run r1 status: Running"; SleepFor 10;
           Query "Succeeded"], 5%nat)
  /\ query_count [Query "Running"; Query "Running"; Report "Run r1 status: Running"; SleepFor 10;
                  Query "Running"; Query "Running"; Report "Run r1 status: Running"; SleepFor 10;
                  Query "Succeeded"] = 5%nat.
Proof.
  split; [reflexivity|].
  destruct (poll_loop_query_accounting 5 (running_then_succeeded 4) 10 "r1" 0 _ _ eq_refl)
    as [_ H]. simpl in H. symmetry; exact H.
Defined.

End RunPollerExtraFacts.

(** ** Serving models *)
Module ServingFacts.
Import Readiness ReadinessFacts PyBuiltins Serving.

(** [serve_model_v2_url(model_uri)] without a name creates the
    InferenceService under the generated name [predictormodel<date>] but
    then polls the InferenceService named [None], the [name] argument it
    was given: whatever the generated service does, when [None] never
    reports ready the helper returns, after 30 probes,
    "Failed to serve model: Failed to create Inference Service None.". *)
Theorem serve_model_v2_url_unnamed date kcreate timer_in_sec is_ready url :
  kcreate (Some ("predictormodel" ++ date)) = Ok tt ->
  (forall j, (1 <= j <= 30)%nat -> is_ready None j = false) ->
  snd (serve_model_v2 (Ok tt) date kcreate timer_in_sec None)
  = Ok (Some ("predictormodel" ++ date))
  /\ serve_model_v2_url (Ok tt) date kcreate timer_in_sec is_ready url None
     = (Sleep timer_in_sec :: probes_with_backoff 1 30,
        "Failed to serve model: Failed to create Inference Service None.").
Proof.
  intros Hc Hnot. unfold serve_model_v2_url, serve_model_v2. rewrite Hc.
  split; [reflexivity|].
  unfold get_served_model_url, Readiness.get_served_model_url.
  change (name_str None) with "None".
  rewrite (retry_never_ready (is_ready None) "None" 29 1 30) by first [lia | exact Hnot].
  reflexivity.
Qed.

Lemma serve_model_v2_url_unnamed_witness :
  (forall j, (1 <= j <= 30)%nat -> (fun (n : option string) (_ : nat) =>
      match n with Some _ => true | None => false end) None j = false)
  /\ serve_model_v2_url (Ok tt) "1530" (fun _ => Ok tt) 10
       (fun n _ => match n with Some _ => true | None => false end)
       (fun _ => Some "http://predictormodel1530.kubeflow") None
     = (Sleep 10 :: probes_with_backoff 1 30,
        "Failed to serve model: Failed to create Inference Service None.").
Proof.
  split; [intros j _; reflexivity|].
  exact (proj2 (serve_model_v2_url_unnamed "1530" (fun _ => Ok tt) 10
                  (fun n _ => match n with Some _ => true | None => false end)
                  (fun _ => Some "http://predictormodel1530.kubeflow")
                  eq_refl (fun j _ => eq_refl))).
Defined.

(** Serving under a name, then polling it: when the InferenceService is
    created and first reports ready at the k-th probe (k <= 30), both
    [serve_model_v1_url] and [serve_model_v2_url] sleep [TIMER_IN_SEC],
    probe k times with the poller's backoff and return the service's
    address. *)
Theorem serve_model_url_named n k u date kcreate timer_in_sec is_ready url :
  kcreate (Some n) = Ok tt -> (1 <= k <= 30)%nat ->
  (forall j, (1 <= j < k)%nat -> is_ready (Some n) j = false) ->
  is_ready (Some n) k = true -> url (Some n) = Some u ->
  serve_model_v2_url (Ok tt) date kcreate timer_in_sec is_ready url (Some n)
  = (Sleep timer_in_sec :: probes_with_backoff 1 k, u)
  /\ serve_model_v1_url (Ok tt) kcreate timer_in_sec is_ready url (Some n)
     = (Sleep timer_in_sec :: probes_with_backoff 1 k, u).
Proof.
  intros Hc Hk Hnot Hready Hu.
  assert (Hg : get_served_model_url (Ok tt) is_ready url (Some n)
               = (probes_with_backoff 1 k, Ok u)).
  { unfold get_served_model_url, Readiness.get_served_model_url. simpl name_str.
    destruct k as [|d]; [lia|].
    rewrite (retry_ready_at (is_ready (Some n)) n d 1 30)
      by first [lia | intros j Hj; apply Hnot; lia | exact Hready].
    rewrite Hu. reflexivity. }
  unfold serve_model_v2_url, serve_model_v1_url, serve_model_v2, serve_model_v1.
  rewrite Hc, Hg. split; reflexivity.
Qed.

Lemma serve_model_url_named_witness :
  (1 <= 2 <= 30)%nat
  /\ serve_model_v1_url (Ok tt) (fun _ => Ok tt) 10
       (fun _ j => Nat.eqb j 2) (fun _ => Some "http://m.kubeflow") (Some "m")
     = ([Sleep 10; Probe 1; Sleep 2; Probe 2], "http://m.kubeflow").
Proof.
  split; [lia|].
  exact (proj2 (serve_model_url_named "m" 2 "http://m.kubeflow" "1530" (fun _ => Ok tt) 10
                  (fun _ j => Nat.eqb j 2) (fun _ => Some "http://m.kubeflow")
                  eq_refl ltac:(lia)
                  (fun j Hj => proj2 (Nat.eqb_neq j 2) ltac:(lia)) eq_refl eq_refl)).
Defined.


(** [delete_served_model] never lets an error of KServe's deletion through
    with its own class: any such error, an [ApiException] 404 for a
    missing service included, is raised as a plain [Exception]
    "Failed to delete Inference Service: <error>"; a successful deletion
    prints one confirmation line and returns [None]. *)
Theorem delete_served_model_wraps kdelete :
  (forall e, fst (delete_served_model (Ok tt) kdelete) = Raise e ->
     exists exp, kdelete = Raise exp
       /\ e = plain_exception ("Failed to delete Inference Service: " ++ py_str exp)
       /\ Services.is_api_exception e = false)
  /\ (kdelete = Ok tt ->
      delete_served_model (Ok tt) kdelete
      = (Ok tt, ["Inference Service has been deleted successfully."])).
Proof.
  split.
  - intros e. unfold delete_served_model. destruct kdelete as [[]|exp]; simpl;
      [discriminate|].
    intros E; injection E as <-. exists exp. repeat split.
  - intros ->. reflexivity.
Qed.

Lemma delete_served_model_wraps_witness :
  delete_served_model (Ok tt) (Ok tt)
  = (Ok tt, ["Inference Service has been deleted successfully."]).
Proof. exact (proj2 (delete_served_model_wraps (Ok tt)) eq_refl). Defined.

End ServingFacts.

(** ** [load_component] *)
Module LoadingFacts.
Import PyBuiltins Loading.

(** [load_component] hands over to a loader only when exactly one source
    is given and it is a non-empty string: the file loader for
    [file_path], the URL loader for [url], the text loader for [text]. *)
Theorem load_component_dispatch file_path url text call :
  load_component file_path url text = Ok call ->
  exists s, truthy s = true
    /\ ((file_path = Some s /\ url = None /\ text = None /\ call = LoadComponentFromFile s)
        \/ (file_path = None /\ url = Some s /\ text = None /\ call = LoadComponentFromUrl s)
        \/ (file_path = None /\ url = None /\ text = Some s /\ call = LoadComponentFromText s)).
Proof.
  unfold load_component, if_truthy.
  destruct file_path as [f|], url as [u|], text as [t|]; simpl; try discriminate.
  - destruct (truthy f) eqn:E; [|discriminate]. intros H; injection H as <-.
    exists f; split; [exact E|]. left; auto.
  - destruct (truthy u) eqn:E; [|discriminate]. intros H; injection H as <-.
    exists u; split; [exact E|]. right; left; auto.
  - destruct (truthy t) eqn:E; [|discriminate]. intros H; injection H as <-.
    exists t; split; [exact E|]. right; right; auto.
Qed.

Lemma load_component_dispatch_witness :
  load_component None (Some "https://example.org/component.yaml") None
  = Ok (LoadComponentFromUrl "https://example.org/component.yaml")
  /\ exists s, truthy s = true
    /\ ((@None string = Some s /\ Some "https://example.org/component.yaml" = None
         /\ @None string = None
         /\ LoadComponentFromUrl "https://example.org/component.yaml" = LoadComponentFromFile s)
        \/ (@None string = None /\ Some "https://example.org/component.yaml" = Some s
            /\ @None string = None
            /\ LoadComponentFromUrl "https://example.org/component.yaml" = LoadComponentFromUrl s)
        \/ (@None string = None /\ Some "https://example.org/component.yaml" = None
            /\ @None string = Some s
            /\ LoadComponentFromUrl "https://example.org/component.yaml"
               = LoadComponentFromText s)).
Proof.
  split; [reflexivity|].
  exact (load_component_dispatch None (Some "https://example.org/component.yaml") None
           (LoadComponentFromUrl "https://example.org/component.yaml") eq_refl).
Defined.



End LoadingFacts.

(** ** [add_model_access] *)
Module ModelAccessFacts.
Import PyBuiltins ModelAccess.

Lemma fold_present environ keys env :
  fold_left (fun env key =>
               match environ key with
               | Some value => if truthy value then (env ++ [(key, value)])%list else env
               | None => env
               end) keys env
  = (env ++ present_vars environ keys)%list.
Proof.
  revert env; induction keys as [|k r IH]; intros env; simpl; [rewrite app_nil_r; reflexivity|].
  rewrite IH. destruct (environ k) as [v|]; [|reflexivity].
  destruct (truthy v); [rewrite <- app_assoc; reflexivity | reflexivity].
Qed.

Lemma present_vars_In environ keys k v :
  In (k, v) (present_vars environ keys) <-> In k keys /\ environ k = Some v /\ v <> "".
Proof.
  induction keys as [|k' r IH]; simpl; [tauto|].
  destruct (environ k') as [v'|] eqn:Hk'.
  - destruct (truthy v') eqn:Ht.
    + simpl. rewrite IH. split.
      * intros [E|(H1 & H2 & H3)]; [injection E as <- <-|].
        -- split; [left; reflexivity|]. split; [exact Hk'|].
           unfold truthy in Ht. apply negb_true_iff, String.eqb_neq in Ht. exact Ht.
        -- auto.
      * intros ([<-|H1] & H2 & H3); [left; congruence | right; auto].
    + rewrite IH. split; [intros (H1 & H2 & H3); auto|].
      intros ([<-|H1] & H2 & H3); [|auto].
      rewrite Hk' in H2. injection H2 as <-.
      unfold truthy in Ht. apply negb_false_iff, String.eqb_eq in Ht. contradiction.
  - rewrite IH. split; [intros (H1 & H2 & H3); auto|].
    intros ([<-|H1] & H2 & H3); [congruence|auto].
Qed.

Lemma present_vars_keys environ keys k :
  In k (map fst (present_vars environ keys)) -> In k keys.
Proof.
  induction keys as [|k' r IH]; simpl; [tauto|].
  destruct (environ k'); [destruct (truthy s)|]; simpl; intuition.
Qed.

Lemma present_vars_NoDup environ keys :
  NoDup keys -> NoDup (map fst (present_vars environ keys)).
Proof.
  induction 1 as [|k r Hk Hr IH]; simpl; [constructor|].
  destruct (environ k); [destruct (truthy s)|]; simpl; try exact IH.
  constructor; [|exact IH]. intros H; apply Hk, (present_vars_keys environ); exact H.
Qed.

Lemma env_vars_NoDup : NoDup env_vars.
Proof.
  unfold env_vars.
  repeat (constructor; [simpl; intros H; repeat destruct H as [H|H]; solve [discriminate H | destruct H]|]).
  constructor.
Qed.


End ModelAccessFacts.

(** ** Deleting a pipeline *)
Module CleanupFacts.
Import PyBuiltins Cleanup.

Definition acts_only {A} (P : Action -> Prop) (m : L A) : Prop :=
  forall x, In x (fst m) -> P x.

Definition raises_only {A} (Q : Exc -> Prop) (m : L A) : Prop :=
  forall e, snd m = Raise e -> Q e.

Lemma lbind_ok {A B} (m : L A) (k : A -> L B) a :
  snd m = Ok a -> lbind m k = ((fst m ++ fst (k a))%list, snd (k a)).
Proof. unfold lbind; intros ->; reflexivity. Qed.

Lemma lbind_acts {A B} P (m : L A) (k : A -> L B) :
  acts_only P m -> (forall a, acts_only P (k a)) -> acts_only P (lbind m k).
Proof.
  unfold acts_only, lbind; intros Hm Hk x.
  destruct (snd m) as [a|e]; simpl; [rewrite in_app_iff; intros [H|H]; eauto | eauto].
Qed.

Lemma ltell_acts P a : P a -> acts_only P (ltell a).
Proof. intros Ha x [<-|[]]; exact Ha. Qed.

Lemma lcall_acts P r a : P a -> acts_only P (lcall r a).
Proof. intros Ha; destruct r; [apply ltell_acts, Ha | intros x []]. Qed.

Lemma lret_acts {A} P (a : A) : acts_only P (lret a).
Proof. intros x []. Qed.

Lemma lof_acts {A} P (r : Result A) : acts_only P (lof r).
Proof. intros x []. Qed.

Lemma try_api_acts P body h :
  acts_only P body -> (forall e, acts_only P (h e)) -> acts_only P (try_api body h).
Proof.
  unfold try_api, acts_only; intros Hb Hh x.
  destruct (snd body) as [|[] ]; try exact (Hb x).
  simpl; rewrite in_app_iff; intros [H|H]; [exact (Hb x H) | exact (Hh _ x H)].
Qed.

Lemma lfor_acts {A} P (l : list A) f :
  (forall x, acts_only P (f x)) -> acts_only P (lfor l f).
Proof.
  intros Hf; induction l as [|x r IH]; simpl; [apply lret_acts|].
  apply lbind_acts; [apply Hf | intros _; exact IH].
Qed.

Lemma lbind_raises {A B} Q (m : L A) (k : A -> L B) :
  raises_only Q m -> (forall a, raises_only Q (k a)) -> raises_only Q (lbind m k).
Proof.
  unfold raises_only, lbind; intros Hm Hk e.
  destruct (snd m) as [a|e'] eqn:E; simpl; [apply Hk | intros H; apply Hm; congruence].
Qed.

Lemma lcall_raises Q r a : (forall e, r = Raise e -> Q e) -> raises_only Q (lcall r a).
Proof. unfold raises_only; destruct r as [|e0]; simpl; [discriminate | intros H e [= <-]; auto]. Qed.

Lemma ltell_raises Q a : raises_only Q (ltell a).
Proof. intros e H; discriminate H. Qed.

Lemma delete_runs_raises Q b run_ids :
  (forall r e, kfp_delete_run b r = Raise e -> Q e) -> raises_only Q (delete_runs b run_ids).
Proof.
  intros H; induction run_ids as [|r rest IH]; simpl; [intros e E; discriminate E|].
  apply lbind_raises; [apply lcall_raises, H | intros _; exact IH].
Qed.

Lemma try_api_ok body h :
  raises_only (fun e => Services.is_api_exception e = true) body ->
  (forall e, snd (h e) = Ok tt) -> snd (try_api body h) = Ok tt.
Proof.
  unfold try_api, raises_only; intros Hb Hh.
  destruct (snd body) as [[]|e] eqn:E; [exact E|].
  specialize (Hb e eq_refl). destruct e; try discriminate Hb. apply Hh.
Qed.

Lemma try_api_raise body h e :
  snd body = Raise e -> Services.is_api_exception e = false ->
  snd (try_api body h) = Raise e.
Proof. unfold try_api; intros E He; rewrite E; destruct e; try discriminate He; exact E. Qed.

Lemma lfor_ok {A} (l : list A) f :
  (forall x, In x l -> snd (f x) = Ok tt) ->
  snd (lfor l f) = Ok tt /\ forall x, In x l -> incl (fst (f x)) (fst (lfor l f)).
Proof.
  induction l as [|x r IH]; intros Hf; simpl; [split; [reflexivity | tauto]|].
  destruct IH as [IHs IHi]; [intros y Hy; apply Hf; right; exact Hy|].
  rewrite (lbind_ok (f x) (fun _ => lfor r f) tt (Hf x (or_introl eq_refl))); simpl.
  split; [exact IHs|]. intros y [<-|Hy] a Ha; apply in_app_iff; [left; exact Ha|].
  right; apply (IHi y Hy a Ha).
Qed.

Lemma lbind_in {A B} (m : L A) (k : A -> L B) x :
  In x (fst (lbind m k)) <-> In x (fst m) \/ exists a, snd m = Ok a /\ In x (fst (k a)).
Proof.
  unfold lbind; destruct (snd m) as [a|e]; simpl; [rewrite in_app_iff|].
  - split; [intros [H|H]; [left | right; exists a]; auto|].
    intros [H|(a' & [= <-] & H)]; auto.
  - split; [auto|]. intros [H|(a' & E & _)]; [exact H | discriminate E].
Qed.

Lemma try_api_in body h x :
  (In x (fst body) -> In x (fst (try_api body h)))
  /\ (In x (fst (try_api body h)) -> In x (fst body) \/ exists e, In x (fst (h e))).
Proof.
  unfold try_api; destruct (snd body) as [|[]]; simpl; try (split; auto; fail).
  rewrite in_app_iff. split; [auto|]. intros [H|H]; [left; exact H | right; eexists; exact H].
Qed.

Lemma delete_runs_acts b run_ids : acts_only (fun x => exists r, x = RunDeleted r) (delete_runs b run_ids).
Proof.
  induction run_ids as [|r rest IH]; simpl; [apply lret_acts|].
  apply lbind_acts; [apply lcall_acts; eauto | intros _; exact IH].
Qed.

Lemma delete_pipeline_parts b pipeline_id run_ids :
  list_runs_by_pipeline_id b = Ok run_ids ->
  delete_pipeline b pipeline_id
  = lbind (runs_part b pipeline_id run_ids) (fun _ =>
    lbind (lof (list_pipeline_versions b)) (fun versions =>
    lbind (versions_part b pipeline_id versions) (fun _ =>
    lbind (pipeline_part b pipeline_id) (fun _ =>
    lcall (db_delete_pipeline_details b) PipelineDetailsDeletedFromDb)))).
Proof.
  intros H. unfold delete_pipeline. rewrite H.
  unfold lbind at 1; simpl. destruct (lbind _ _); reflexivity.
Qed.

Lemma delete_runs_all_ok b run_ids :
  snd (delete_runs b run_ids) = Ok tt ->
  fst (delete_runs b run_ids) = map RunDeleted run_ids.
Proof.
  induction run_ids as [|r rest IH]; simpl; [reflexivity|].
  unfold lbind, lcall. destruct (kfp_delete_run b r); simpl; [|discriminate].
  intros H; f_equal; apply IH, H.
Qed.

(** [KubeflowPlugin.delete_runs] deletes the runs one by one, in the
    order given, and stops at the first deletion that fails: the runs
    before it are deleted, the error is raised, and no later run is
    deleted; when none fails, every run is deleted. *)
Theorem delete_runs_stops b pre run post e :
  (forall r, In r pre -> kfp_delete_run b r = Ok tt) ->
  kfp_delete_run b run = Raise e ->
  delete_runs b (pre ++ run :: post) = (map RunDeleted pre, Raise e)
  /\ ((forall r, In r (pre ++ run :: post) -> kfp_delete_run b r = Ok tt) ->
      delete_runs b (pre ++ run :: post) = (map RunDeleted (pre ++ run :: post), Ok tt)).
Proof.
  intros Hpre Hrun. split.
  - induction pre as [|r pre IH]; simpl.
    + rewrite Hrun; reflexivity.
    + rewrite (Hpre r (or_introl eq_refl)). cbn [lcall ltell lbind fst snd].
      rewrite IH by (intros r' Hr'; apply Hpre; right; exact Hr'). reflexivity.
  - intros Hall. rewrite (Hall run) in Hrun by (apply in_app_iff; right; left; reflexivity).
    discriminate Hrun.
Qed.

Lemma delete_runs_stops_witness :
  delete_runs (mkBackend (Ok []) (fun r => if String.eqb r "r2"
                                           then Raise (ApiException "404" "Not Found")
                                           else Ok tt)
                 (Ok tt) (Ok None) (fun _ => Ok tt) (Ok tt) (Ok tt))
    (["r1"] ++ "r2" :: ["r3"])%list
  = ([RunDeleted "r1"], Raise (ApiException "404" "Not Found")).
Proof.
  exact (proj1 (delete_runs_stops
    (mkBackend (Ok []) (fun r => if String.eqb r "r2"
                                 then Raise (ApiException "404" "Not Found")
                                 else Ok tt)
       (Ok tt) (Ok None) (fun _ => Ok tt) (Ok tt) (Ok tt))
    ["r1"] "r2" ["r3"] (ApiException "404" "Not Found")
    (fun r Hr => match Hr with
                 | or_introl E => eq_ind "r1" (fun r => (if String.eqb r "r2"
                                   then Raise (ApiException "404" "Not Found")
                                   else Ok tt) = Ok tt) eq_refl r E
                 | or_intror F => False_ind _ F
                 end)
    eq_refl)).
Defined.

(** When the only failures of KFP's and the database's deletions are
    [ApiException]s and the listings succeed, [delete_pipeline] returns
    normally and ends by deleting the pipeline's database record; the
    runs' database record is deleted or a "Failed to delete run" line is
    printed; each listed version is deleted (and "Deleted pipeline
    version" printed) or its error is printed; and the pipeline is
    deleted or its error is printed. *)
Theorem delete_pipeline_completes b pipeline_id run_ids :
  list_runs_by_pipeline_id b = Ok run_ids ->
  (exists versions, list_pipeline_versions b = Ok versions) ->
  db_delete_pipeline_details b = Ok tt ->
  api_failures_only b ->
  let acts := fst (delete_pipeline b pipeline_id) in
  snd (delete_pipeline b pipeline_id) = Ok tt
  /\ (exists before, acts = (before ++ [PipelineDetailsDeletedFromDb])%list)
  /\ (In RunDetailsDeletedFromDb acts
      \/ exists exp, In (Printed ("Failed to delete run for the pipeline id "
                                  ++ pipeline_id ++ ": " ++ py_str exp)) acts)
  /\ (forall vs v, list_pipeline_versions b = Ok (Some vs) -> In v vs ->
        (In (VersionDeleted v) acts /\ In (Printed ("Deleted pipeline version: " ++ v)) acts)
        \/ exists exp, kfp_delete_pipeline_version b v = Raise exp
             /\ In (Printed ("Failed to delete pipeline version " ++ v ++ ": "
                             ++ py_str exp)) acts)
  /\ ((In PipelineDeleted acts /\ In (Printed ("Deleted pipeline: " ++ pipeline_id)) acts)
      \/ exists exp, kfp_delete_pipeline b = Raise exp
           /\ In (Printed ("Failed to delete pipeline " ++ pipeline_id ++ ": "
                           ++ py_str exp)) acts).
Proof.
  intros Hruns [versions Hvers] Hdb (Hr & Hrd & Hv & Hp) acts. subst acts.
  rewrite (delete_pipeline_parts b pipeline_id run_ids Hruns).
  (* the runs *)
  assert (HR : snd (runs_part b pipeline_id run_ids) = Ok tt).
  { apply try_api_ok; [|reflexivity].
    apply lbind_raises; [apply delete_runs_raises, Hr | intros _; apply lcall_raises, Hrd]. }
  assert (HRa : In RunDetailsDeletedFromDb (fst (runs_part b pipeline_id run_ids))
                \/ exists exp, In (Printed ("Failed to delete run for the pipeline id "
                      ++ pipeline_id ++ ": " ++ py_str exp)) (fst (runs_part b pipeline_id run_ids))).
  { unfold runs_part, try_api.
    destruct (snd (lbind (delete_runs b run_ids)
                    (fun _ => lcall (db_delete_run_details b) RunDetailsDeletedFromDb)))
      as [[]|e] eqn:E.
    - left. unfold lbind in *. destruct (snd (delete_runs b run_ids)) as [[]|e]; [|discriminate].
      destruct (db_delete_run_details b); [|discriminate]. simpl.
      apply in_app_iff; right; left; reflexivity.
    - pose proof HR as HR0; unfold runs_part in HR0.
      destruct e; try (rewrite (try_api_raise _ _ _ E eq_refl) in HR0; discriminate HR0).
      right. exists (ApiException status reason). cbn [fst snd ltell].
      apply in_app_iff; right; left; reflexivity. }
  (* the versions *)
  assert (HV : snd (versions_part b pipeline_id versions) = Ok tt
               /\ forall vs v, versions = Some vs -> In v vs ->
                    incl (fst (version_part b v)) (fst (versions_part b pipeline_id versions))).
  { assert (Hok : forall v, snd (version_part b v) = Ok tt).
    { intros v; apply try_api_ok; [|reflexivity].
      apply lbind_raises; [apply lcall_raises, Hv | intros _; apply ltell_raises]. }
    destruct versions as [[|v0 vs0]|]; unfold versions_part.
    - split; [reflexivity | intros vs v [= <-] []].
    - destruct (lfor_ok (v0 :: vs0) (version_part b) (fun x _ => Hok x)) as [Hs Hi].
      rewrite (lbind_ok (ltell (Printed ("Pipeline Version IDs to delete: "
                                          ++ repr_str_list (v0 :: vs0))))
                 (fun _ => lfor (v0 :: vs0) (version_part b)) tt eq_refl).
      cbn [fst snd ltell app].
      split; [exact Hs|]. intros vs v [= <-] Hin a Ha. right. exact (Hi v Hin a Ha).
    - split; [reflexivity | discriminate]. }
  destruct HV as [HVs HVi].
  assert (HP : snd (pipeline_part b pipeline_id) = Ok tt).
  { apply try_api_ok; [|reflexivity].
    apply lbind_raises; [apply lcall_raises, Hp | intros _; apply ltell_raises]. }
  rewrite (lbind_ok _ _ tt HR), Hvers.
  cbn [lof fst snd].
  rewrite (lbind_ok (lof (Ok versions)) _ versions eq_refl). cbn [lof fst snd app].
  rewrite (lbind_ok _ _ tt HVs), (lbind_ok _ _ tt HP), Hdb. cbn [lcall ltell fst snd].
  split; [reflexivity|]. split.
  { eexists. rewrite !app_assoc. reflexivity. }
  split.
  { destruct HRa as [H|[exp H]]; [left|right; exists exp]; apply in_app_iff; left; exact H. }
  split.
  { intros vs v Hvs Hin. injection Hvs as ->.
    assert (Hsub : forall a, In a (fst (version_part b v)) ->
                   In a (fst (runs_part b pipeline_id run_ids)
                         ++ fst (versions_part b pipeline_id (Some vs))
                         ++ fst (pipeline_part b pipeline_id) ++ [PipelineDetailsDeletedFromDb])%list).
    { intros a Ha. apply in_app_iff; right; apply in_app_iff; left.
      exact (HVi vs v eq_refl Hin a Ha). }
    destruct (kfp_delete_pipeline_version b v) as [[]|e] eqn:E.
    - assert (Hf : fst (version_part b v)
                   = [VersionDeleted v; Printed ("Deleted pipeline version: " ++ v)]).
      { unfold version_part, try_api, lbind, lcall; rewrite E; reflexivity. }
      rewrite Hf in Hsub. left; split; apply Hsub; [left | right; left]; reflexivity.
    - pose proof (Hv v e E) as Ha. destruct e; try discriminate Ha.
      assert (Hf : fst (version_part b v)
                   = [Printed ("Failed to delete pipeline version " ++ v ++ ": "
                               ++ py_str (ApiException status reason))]).
      { unfold version_part, try_api, lbind, lcall; rewrite E; reflexivity. }
      rewrite Hf in Hsub. right. eexists; split; [reflexivity|].
      apply Hsub; left; reflexivity. }
  { destruct (kfp_delete_pipeline b) as [[]|e] eqn:E.
    - assert (Hf : fst (pipeline_part b pipeline_id)
                   = [PipelineDeleted; Printed ("Deleted pipeline: " ++ pipeline_id)]).
      { unfold pipeline_part, try_api, lbind, lcall; rewrite E; reflexivity. }
      rewrite Hf. left; split; rewrite !in_app_iff; right; right; left;
        [left | right; left]; reflexivity.
    - pose proof (Hp e eq_refl) as Ha. destruct e; try discriminate Ha.
      assert (Hf : fst (pipeline_part b pipeline_id)
                   = [Printed ("Failed to delete pipeline " ++ pipeline_id ++ ": "
                               ++ py_str (ApiException status reason))]).
      { unfold pipeline_part, try_api, lbind, lcall; rewrite E; reflexivity. }
      rewrite Hf. right. eexists; split; [reflexivity|].
      rewrite !in_app_iff; right; right; left; left; reflexivity. }
Qed.

Lemma delete_pipeline_completes_witness :
  let bk := mkBackend (Ok ["r1"]) (fun _ => Ok tt) (Ok tt) (Ok (Some ["v1"; "v2"]))
              (fun v => if String.eqb v "v2" then Raise (ApiException "404" "Not Found")
                        else Ok tt)
              (Ok tt) (Ok tt) in
  api_failures_only bk /\ snd (delete_pipeline bk "p1") = Ok tt.
Proof.
  intros bk.
  assert (Hapi : api_failures_only bk).
  { unfold api_failures_only; cbn.
    split; [intros r e E; discriminate E|]. split; [intros e E; discriminate E|].
    split; [|intros e E; discriminate E].
    intros v e. destruct (String.eqb v "v2"); intros E; [injection E as <-; reflexivity | discriminate E]. }
  split; [exact Hapi|].
  exact (proj1 (delete_pipeline_completes bk "p1" ["r1"] eq_refl
                  (ex_intro _ (Some ["v1"; "v2"]) eq_refl) eq_refl Hapi)).
Defined.



End CleanupFacts.
